(** * Expense allocation and invoice lifecycle of the building portal

    A shallow embedding of [app/models/finance.py]: the allocation of a
    building expense over its units ([ExpenseCategory.calculate_allocations],
    [Expense.generate_allocations]) and the invoice state machine
    ([Invoice.update_status], [Invoice.add_late_fee],
    [Payment.apply_to_invoice]).

    Amounts are Python [Decimal]s.  The module [Dec] models the arithmetic of
    the [decimal] module under its default context (28 significant digits,
    ROUND_HALF_EVEN), on finite numbers. *)

From Stdlib Require Import ZArith Lia.
From stdpp Require Import base option list strings gmap.

Open Scope Z_scope.

(** ** Python's [decimal.Decimal] under the default context *)

Module Dec.

(** A finite decimal: [(-1)^sign * coeff * 10^exp], with [0 <= coeff].
    Python keeps the coefficient as a digit string; its length is
    [ndigits coeff].  The exponent limits [Emin]/[Emax] (±999999) of the
    context are far from every amount handled here and are not modelled;
    NaN and infinities never arise from the operations below on finite
    operands. *)
Record Decimal := mk { sign : bool; coeff : Z; exp : Z }.

(** [getcontext().prec] *)
Definition prec : Z := 28.

Fixpoint ndigits_aux (fuel : nat) (n : Z) : Z :=
  match fuel with
  | O => 1
  | S fuel' => if n <? 10 then 1 else 1 + ndigits_aux fuel' (n / 10)
  end.

(** [len(self._int)]: the number of decimal digits, 1 for zero. *)
Definition ndigits (n : Z) : Z := ndigits_aux (S (Z.to_nat (Z.log2 n))) n.

(** [Decimal._fix]: round to [prec] digits, half to even. *)
Definition fix_ (d : Decimal) : Decimal :=
  if coeff d =? 0 then d
  else
    let exp_min := ndigits (coeff d) + exp d - prec in
    if exp d <? exp_min then
      let drop := exp_min - exp d in
      let q := coeff d / 10 ^ drop in
      let r := coeff d mod 10 ^ drop in
      let half := 5 * 10 ^ (drop - 1) in
      let up := (half <? r) || ((r =? half) && Z.odd q) in
      let q' := if up then q + 1 else q in
      if prec <? ndigits q' then mk (sign d) (q' / 10) (exp_min + 1)
      else mk (sign d) q' exp_min
    else d.

(** [Decimal(n)] for a Python int. *)
Definition of_int (n : Z) : Decimal := mk (n <? 0) (Z.abs n) 0.

Definition signed (d : Decimal) : Z := if sign d then - coeff d else coeff d.

(** The signed coefficient of [d] once rescaled to exponent [e <= exp d]. *)
Definition scaled (e : Z) (d : Decimal) : Z := signed d * 10 ^ (exp d - e).

(** [Decimal.__add__]: the exact sum at the smaller exponent, then [_fix].
    A zero sum is negative only when both operands are. *)
Definition add (a b : Decimal) : Decimal :=
  let e := Z.min (exp a) (exp b) in
  let s := scaled e a + scaled e b in
  fix_ (mk (if s =? 0 then sign a && sign b else s <? 0) (Z.abs s) e).

(** [Decimal.__mul__] *)
Definition mul (a b : Decimal) : Decimal :=
  fix_ (mk (xorb (sign a) (sign b)) (coeff a * coeff b) (exp a + exp b)).

(** The loop of [__truediv__] that brings an exact quotient as close to
    the ideal exponent as its trailing zeros allow. *)
Fixpoint strip_zeros (fuel : nat) (c e : Z) : Z * Z :=
  match fuel with
  | O => (c, e)
  | S fuel' => if c mod 10 =? 0 then strip_zeros fuel' (c / 10) (e + 1) else (c, e)
  end.

(** [Decimal.__truediv__]; [None] stands for the raised
    [DivisionByZero] / [DivisionUndefined]. *)
Definition div (a b : Decimal) : option Decimal :=
  let sg := xorb (sign a) (sign b) in
  if coeff b =? 0 then None
  else if coeff a =? 0 then Some (fix_ (mk sg 0 (exp a - exp b)))
  else
    let shift := ndigits (coeff b) - ndigits (coeff a) + prec + 1 in
    let e := exp a - exp b - shift in
    let num := if 0 <=? shift then coeff a * 10 ^ shift else coeff a in
    let den := if 0 <=? shift then coeff b else coeff b * 10 ^ (- shift) in
    let q := num / den in
    if num mod den =? 0 then
      let '(c, e') := strip_zeros (Z.to_nat (exp a - exp b - e)) q e in
      Some (fix_ (mk sg c e'))
    else Some (fix_ (mk sg (if q mod 5 =? 0 then q + 1 else q) e)).

(** Numerical comparison, as [Decimal._cmp]. *)
Definition cmp (a b : Decimal) : comparison :=
  let e := Z.min (exp a) (exp b) in scaled e a ?= scaled e b.

Definition eqb (a b : Decimal) : bool :=
  match cmp a b with Eq => true | _ => false end.
Definition gtb (a b : Decimal) : bool :=
  match cmp a b with Gt => true | _ => false end.
Definition geb (a b : Decimal) : bool :=
  match cmp a b with Lt => false | _ => true end.

(** [bool(d)]: a decimal is falsy exactly when it is a zero. *)
Definition truthy (d : Decimal) : bool := negb (coeff d =? 0).

(** [Decimal.__sub__]: add the negated operand. *)
Definition neg (d : Decimal) : Decimal := mk (negb (sign d)) (coeff d) (exp d).
Definition sub (a b : Decimal) : Decimal := add a (neg b).

(** A literal with two decimal places, such as [Decimal('100.00')]. *)
Definition cents (c : Z) : Decimal := mk false c (-2).

End Dec.

(** ** Python containers and values *)

(** A Python [dict] keyed by unit ids: iteration follows insertion order and
    assigning to a key that is present overwrites its value in place. *)
Module PyDict.

Definition t (V : Type) : Type := list (Z * V).

Fixpoint set {V} (k : Z) (v : V) (d : t V) : t V :=
  match d with
  | [] => [(k, v)]
  | (k', v') :: d' =>
      if decide (k' = k) then (k, v) :: d' else (k', v') :: set k v d'
  end.

Fixpoint get {V} (k : Z) (d : t V) : option V :=
  match d with
  | [] => None
  | (k', v') :: d' => if decide (k' = k) then Some v' else get k d'
  end.

Definition keys {V} (d : t V) : list Z := d.*1.
Definition values {V} (d : t V) : list V := d.*2.

End PyDict.

(** [float(x)] of a decimal is kept symbolic: the nearest double is not
    computed. *)
Inductive PyFloat := float_of (d : Dec.Decimal).

(** The result of [datetime.utcnow().isoformat()]. *)
Definition Timestamp : Type := string.

(** A JSONB value. *)
#[warnings="-register-all"]
Inductive JSON :=
| JNull
| JFloat (x : PyFloat)
| JStr (s : string)
| JList (items : list JSON)
| JObj (fields : list (string * JSON)).

(** [sum(xs)] over decimals: Python starts from the int [0]. *)
Definition py_sum (xs : list Dec.Decimal) : Dec.Decimal :=
  foldl Dec.add (Dec.of_int 0) xs.

(** ** Enumerations *)

Inductive AllocationMethodEnum := SHARES | PER_UNIT | PER_PERSON | METERED | CUSTOM.

Definition AllocationMethodEnum_value (m : AllocationMethodEnum) : string :=
  match m with
  | SHARES => "shares"
  | PER_UNIT => "per_unit"
  | PER_PERSON => "per_person"
  | METERED => "metered"
  | CUSTOM => "custom"
  end.

Inductive InvoiceStatusEnum := UNPAID | PARTIAL | PAID | OVERDUE | CANCELLED.

#[global] Instance InvoiceStatusEnum_eq_dec : EqDecision InvoiceStatusEnum.
Proof. solve_decision. Defined.

(** ** Units and expense categories *)

Module Unit.
(** [shares] and [occupancy_count] are nullable columns. *)
Record t := mk {
  id : Z;
  building_id : Z;
  shares : option Dec.Decimal;
  occupancy_count : option Z;
  is_active : bool
}.
End Unit.

(** [Unit.query.filter_by(building_id=..., is_active=True).all()] over the
    rows of the [units] table. *)
Definition active_units (units : list Unit.t) (building_id : Z) : list Unit.t :=
  filter (fun u => Unit.building_id u = building_id /\ Unit.is_active u = true) units.

(** [unit.shares or Decimal('0')] *)
Definition shares_or_zero (u : Unit.t) : Dec.Decimal :=
  match Unit.shares u with
  | Some s => if Dec.truthy s then s else Dec.of_int 0
  | None => Dec.of_int 0
  end.

(** [unit.occupancy_count or 0] *)
Definition occupancy_or_zero (u : Unit.t) : Z :=
  match Unit.occupancy_count u with
  | Some n => n
  | None => 0
  end.

(** [sum(unit.shares or Decimal('0') for unit in units)] *)
Definition total_shares (units : list Unit.t) : Dec.Decimal :=
  py_sum (shares_or_zero <$> units).

(** [sum(unit.occupancy_count or 0 for unit in units)] *)
Definition total_occupants (units : list Unit.t) : Z :=
  foldl Z.add 0 (occupancy_or_zero <$> units).

Module ExpenseCategory.

Record t := mk {
  id : Z;
  building_id : Z;
  allocation_method : AllocationMethodEnum
}.

(** The amount the SHARES loop stores for one unit. *)
Definition shares_amount (total_shares total_amount : Dec.Decimal) (u : Unit.t)
  : option Dec.Decimal :=
  match Unit.shares u with
  | Some s =>
      if Dec.truthy s then
        w ← Dec.div s total_shares; Some (Dec.mul w total_amount)
      else Some (Dec.of_int 0)
  | None => Some (Dec.of_int 0)
  end.

(** [for unit in units: allocations[unit.id] = amount(unit)], where the
    amount may raise. *)
Fixpoint assign (amount : Unit.t -> option Dec.Decimal) (units : list Unit.t)
    (allocations : PyDict.t Dec.Decimal) : option (PyDict.t Dec.Decimal) :=
  match units with
  | [] => Some allocations
  | u :: units' =>
      a ← amount u;
      assign amount units' (PyDict.set (Unit.id u) a allocations)
  end.

(** [calculate_allocations(self, total_amount, period)] over the [units]
    table; [total_amount] is a decimal, so [Decimal(str(total_amount))]
    is [total_amount] itself.  [None] is a raised exception. *)
Definition calculate_allocations (table : list Unit.t) (self : t)
    (total_amount : Dec.Decimal) : option (PyDict.t Dec.Decimal) :=
  let units := active_units table (building_id self) in
  match allocation_method self with
  | SHARES =>
      let total := total_shares units in
      if Dec.gtb total (Dec.of_int 0) then
        assign (shares_amount total total_amount) units []
      else Some []
  | PER_UNIT =>
      match units with
      | [] => Some []
      | _ :: _ =>
          amount_per_unit ← Dec.div total_amount (Dec.of_int (Z.of_nat (length units)));
          assign (fun _ => Some amount_per_unit) units []
      end
  | PER_PERSON =>
      let total := total_occupants units in
      if 0 <? total then
        amount_per_person ← Dec.div total_amount (Dec.of_int total);
        assign (fun u => Some (Dec.mul amount_per_person (Dec.of_int (occupancy_or_zero u))))
               units []
      else Some []
  | METERED => assign (fun _ => Some (Dec.of_int 0)) units []
  | CUSTOM => assign (fun _ => Some (Dec.of_int 0)) units []
  end.

End ExpenseCategory.

(** ** Expenses and their allocation rows *)

Module ExpenseAllocation.
(** [formula_snapshot] is a JSONB object. *)
Record t := mk {
  expense_id : Z;
  unit_id : Z;
  amount : Dec.Decimal;
  formula_snapshot : JSON
}.
End ExpenseAllocation.

(** What the operations see of the database session and of the outside
    world: the [units] and [expense_allocations] tables, and the number of
    times the wall clock has been read.  Rows are kept as Python hands them
    over; the constraints and column rounding of the database server are not
    part of the model. *)
Record Session := mkSession {
  units : list Unit.t;
  expense_allocations : list ExpenseAllocation.t;
  clock_reads : nat
}.

Module Expense.

Record t := mk {
  id : Z;
  building_id : Z;
  category : ExpenseCategory.t;
  period : Z;
  amount_total : Dec.Decimal;
  is_allocated : bool;
  is_invoiced : bool
}.

Definition set_is_allocated (b : bool) (self : t) : t :=
  mk (id self) (building_id self) (category self) (period self)
     (amount_total self) b (is_invoiced self).

(** The snapshot written with every allocation row. *)
Definition formula_snapshot (self : t) (now : Timestamp) : JSON :=
  JObj [("method", JStr (AllocationMethodEnum_value
                           (ExpenseCategory.allocation_method (category self))));
        ("total_amount", JFloat (float_of (amount_total self)));
        ("calculation_date", JStr now)].

(** The row built for one item of the allocation mapping. *)
Definition allocation_row (self : t) (now : Timestamp) (item : Z * Dec.Decimal)
  : ExpenseAllocation.t :=
  ExpenseAllocation.mk (id self) item.1 item.2 (formula_snapshot self now).

(** One turn of the loop: build the row, reading the clock, and
    [allocation.save()] it. *)
Definition save_allocation (utcnow : nat -> Timestamp) (self : t)
    (db : Session) (item : Z * Dec.Decimal) : Session :=
  mkSession (units db)
    (expense_allocations db ++ [allocation_row self (utcnow (clock_reads db)) item])
    (S (clock_reads db)).

(** [generate_allocations(self)]: the returned flag, the expense and the
    session afterwards.  [utcnow n] is the [n]-th reading of the clock. *)
Definition generate_allocations (utcnow : nat -> Timestamp) (db : Session)
    (self : t) : option (bool * t * Session) :=
  if is_allocated self then Some (false, self, db)
  else
    allocations ← ExpenseCategory.calculate_allocations
                    (units db) (category self) (amount_total self);
    Some (true, set_is_allocated true self,
          foldl (save_allocation utcnow self) db allocations).

End Expense.

(** ** Invoices *)

Module Invoice.

(** [details] is a nullable JSONB object. *)
Record t := mk {
  id : Z;
  unit_id : Z;
  period : Z;
  amount_due : Dec.Decimal;
  amount_paid : Dec.Decimal;
  due_date : Z;
  status : InvoiceStatusEnum;
  details : option (gmap string JSON)
}.

Definition set_status (s : InvoiceStatusEnum) (self : t) : t :=
  mk (id self) (unit_id self) (period self) (amount_due self)
     (amount_paid self) (due_date self) s (details self).

Definition set_amount_paid (a : Dec.Decimal) (self : t) : t :=
  mk (id self) (unit_id self) (period self) (amount_due self)
     a (due_date self) (status self) (details self).

Definition set_amount_due (a : Dec.Decimal) (self : t) : t :=
  mk (id self) (unit_id self) (period self) a
     (amount_paid self) (due_date self) (status self) (details self).

Definition set_details (d : option (gmap string JSON)) (self : t) : t :=
  mk (id self) (unit_id self) (period self) (amount_due self)
     (amount_paid self) (due_date self) (status self) d.

(** The [balance_due] property. *)
Definition balance_due (self : t) : Dec.Decimal :=
  Dec.sub (amount_due self) (amount_paid self).

(** The [is_overdue] property; [today] is [date.today()], dates are day
    numbers. *)
Definition is_overdue (today : Z) (self : t) : bool :=
  (due_date self <? today)
  && negb (bool_decide (status self ∈ [PAID; CANCELLED])).

(** [update_status(self)] *)
Definition update_status (today : Z) (self : t) : t :=
  if Dec.geb (amount_paid self) (amount_due self) then set_status PAID self
  else if Dec.gtb (amount_paid self) (Dec.of_int 0) then set_status PARTIAL self
  else if is_overdue today self then set_status OVERDUE self
  else set_status UNPAID self.

(** The entry appended to [details['late_fees']]. *)
Definition late_fee_entry (fee_amount : Dec.Decimal) (now : Timestamp) : JSON :=
  JObj [("amount", JFloat (float_of fee_amount));
        ("date", JStr now);
        ("reason", JStr "Late payment fee")].

(** [add_late_fee(self, fee_amount)] with a decimal fee, so that
    [Decimal(str(fee_amount))] is the fee itself; [now] is the clock
    reading.  [None] is the exception raised by [.append] when
    [details['late_fees']] is present and is not a list. *)
Definition add_late_fee (now : Timestamp) (fee_amount : Dec.Decimal) (self : t)
  : option t :=
  let self1 := set_amount_due (Dec.add (amount_due self) fee_amount) self in
  let details1 : gmap string JSON :=
    match details self1 with
    | Some d => if decide (size d = 0%nat) then ∅ else d
    | None => ∅
    end in
  let details2 :=
    match details1 !! "late_fees" with
    | None => <["late_fees" := JList []]> details1
    | Some _ => details1
    end in
  match details2 !! "late_fees" with
  | Some (JList fees) =>
      Some (set_details
              (Some (<["late_fees" := JList (fees ++ [late_fee_entry fee_amount now])]> details2))
              self1)
  | _ => None
  end.

End Invoice.

(** ** Payments *)

Module Payment.

(** [invoice_id] is nullable; the [invoice] relationship resolves it in
    the session's invoices, which the payment shares with every other
    holder of that invoice. *)
Record t := mk {
  id : Z;
  unit_id : Z;
  invoice_id : option Z;
  amount : Dec.Decimal;
  is_confirmed : bool
}.

(** [apply_to_invoice(self)]: the returned flag and the invoices
    afterwards.  [self.invoice] is the invoice stored under
    [invoice_id], and it is that shared object which is updated. *)
Definition apply_to_invoice (today : Z) (invoices : gmap Z Invoice.t) (self : t)
  : bool * gmap Z Invoice.t :=
  match invoice_id self with
  | Some i =>
      match invoices !! i with
      | Some inv =>
          if is_confirmed self then
            let inv1 := Invoice.set_amount_paid
                          (Dec.add (Invoice.amount_paid inv) (amount self)) inv in
            (true, <[i := Invoice.update_status today inv1]> invoices)
          else (false, invoices)
      | None => (false, invoices)
      end
  | None => (false, invoices)
  end.

End Payment.

(** ** Looking the enumerations up by value *)

(** [AllocationMethodEnum(value)]; [None] is the raised [ValueError]. *)
Definition AllocationMethodEnum_of_value (value : string) : option AllocationMethodEnum :=
  if decide (value = "shares") then Some SHARES
  else if decide (value = "per_unit") then Some PER_UNIT
  else if decide (value = "per_person") then Some PER_PERSON
  else if decide (value = "metered") then Some METERED
  else if decide (value = "custom") then Some CUSTOM
  else None.

(** ** Memberships, units and buildings ([app/models/building.py]) *)

Inductive LocalRoleEnum := MANAGER | CASHIER | OWNER | TENANT | OCCUPANT | GUEST.

#[global] Instance LocalRoleEnum_eq_dec : EqDecision LocalRoleEnum.
Proof. solve_decision. Defined.

Module Membership.
(** [user] is the member, known by the id of the user row. *)
Record t := mk {
  id : Z;
  user : Z;
  role : LocalRoleEnum;
  is_active : bool;
  is_primary : bool
}.
End Membership.

(** A unit together with the columns and the relationship that the
    allocation does not read. *)
Module UnitRow.

Record t := mk {
  unit : Unit.t;
  entrance : option string;
  floor : option Z;
  number : string;
  area_m2 : option Dec.Decimal;
  memberships : list Membership.t
}.

Definition get_active_memberships (self : t) : list Membership.t :=
  filter (fun m => Membership.is_active m = true) (memberships self).

Definition get_owners (self : t) : list Z :=
  Membership.user <$> filter (fun m => Membership.role m = OWNER) (get_active_memberships self).

Definition get_tenants (self : t) : list Z :=
  Membership.user <$> filter (fun m => Membership.role m = TENANT) (get_active_memberships self).

Definition get_all_occupants (self : t) : list Z :=
  Membership.user <$> get_active_memberships self.

(** [get_primary_contact(self)]: the member to contact, or [None]. *)
Definition get_primary_contact (self : t) : option Z :=
  match filter (fun m => Membership.is_primary m = true) (get_active_memberships self) with
  | m :: _ => Some (Membership.user m)
  | [] =>
      match get_owners self with
      | owner :: _ => Some owner
      | [] =>
          match get_tenants self with
          | tenant :: _ => Some tenant
          | [] =>
              match get_all_occupants self with
              | occupant :: _ => Some occupant
              | [] => None
              end
          end
      end
  end.

(** [update_occupancy_count(self)] *)
Definition update_occupancy_count (self : t) : t :=
  mk (Unit.mk (Unit.id (unit self)) (Unit.building_id (unit self)) (Unit.shares (unit self))
        (Some (Z.of_nat (length (get_active_memberships self)))) (Unit.is_active (unit self)))
     (entrance self) (floor self) (number self) (area_m2 self) (memberships self).

End UnitRow.

Module BankAccount.
Record t := mk {
  iban : string;
  bank_name : string;
  account_holder : string;
  is_primary : bool
}.
End BankAccount.

Module Building.

(** [entrances] and [bank_accounts] are nullable JSONB lists; [units] is
    the relationship, in the order of the table. *)
Record t := mk {
  id : Z;
  entrances : option (list string);
  bank_accounts : option (list BankAccount.t);
  units : list UnitRow.t
}.

Definition set_entrances (e : option (list string)) (self : t) : t :=
  mk (id self) e (bank_accounts self) (units self).

Definition set_bank_accounts (a : option (list BankAccount.t)) (self : t) : t :=
  mk (id self) (entrances self) a (units self).

Definition get_total_units (self : t) : Z := Z.of_nat (length (units self)).

Definition get_units_by_entrance (self : t) (entrance : string) : list UnitRow.t :=
  filter (fun u => UnitRow.entrance u = Some entrance) (units self).

(** [sum(unit.shares or Decimal('0') for unit in self.units)] *)
Definition get_total_shares (self : t) : Dec.Decimal :=
  total_shares (UnitRow.unit <$> units self).

(** [add_entrance(self, entrance_name)] *)
Definition add_entrance (entrance_name : string) (self : t) : t :=
  let entrances1 :=
    match entrances self with
    | Some (e :: es) => e :: es
    | _ => []
    end in
  if decide (entrance_name ∈ entrances1) then set_entrances (Some entrances1) self
  else set_entrances (Some (entrances1 ++ [entrance_name])) self.

(** [remove_entrance(self, entrance_name)]: the returned flag and the
    building afterwards; [None] is the [TypeError] of [in] on a NULL
    [entrances]. *)
Definition remove_entrance (entrance_name : string) (self : t) : option (bool * t) :=
  match get_units_by_entrance self entrance_name with
  | [] =>
      match entrances self with
      | None => None
      | Some es =>
          if decide (entrance_name ∈ es) then
            Some (true, set_entrances (Some (filter (fun e => e <> entrance_name) es)) self)
          else Some (false, self)
      end
  | _ :: _ => Some (false, self)
  end.

(** [add_bank_account(self, iban, bank_name, account_holder)] *)
Definition add_bank_account (iban bank_name account_holder : string) (self : t) : t :=
  let accounts1 :=
    match bank_accounts self with
    | Some (a :: l) => a :: l
    | _ => []
    end in
  let account :=
    BankAccount.mk iban bank_name account_holder (bool_decide (length accounts1 = 0%nat)) in
  set_bank_accounts (Some (accounts1 ++ [account])) self.

(** The [floors_count] property. *)
Definition floors_count (self : t) : Z :=
  Z.of_nat (size (list_to_set (omap UnitRow.floor (units self)) : gset Z)).

End Building.

(** [Unit.calculate_share_percentage(self)]; [building] is [self.building],
    which may be missing.  [None] is a raised exception. *)
Definition calculate_share_percentage (building : option Building.t) (self : UnitRow.t)
  : option Dec.Decimal :=
  match Unit.shares (UnitRow.unit self), building with
  | Some s, Some b =>
      if Dec.truthy s then
        let total := Building.get_total_shares b in
        if Dec.gtb total (Dec.of_int 0) then
          w ← Dec.div s total; Some (Dec.mul w (Dec.of_int 100))
        else Some (Dec.of_int 0)
      else Some (Dec.of_int 0)
  | _, _ => Some (Dec.of_int 0)
  end.

(** ** Audit logs ([app/models/__init__.py]) *)

(** The column values handed to the audit log.  Python compares [True]
    with [1] and [False] with [0] as equal. *)
Inductive PyValue :=
| VNone
| VBool (b : bool)
| VInt (n : Z)
| VStr (s : string).

#[global] Instance PyValue_eq_dec : EqDecision PyValue.
Proof. solve_decision. Defined.

(** [a != b] *)
Definition py_ne (a b : PyValue) : bool :=
  match a, b with
  | VBool x, VInt n | VInt n, VBool x => negb (n =? (if x then 1 else 0))
  | _, _ => negb (bool_decide (a = b))
  end.

Module AuditLog.
Record t := mk {
  actor_user_id : Z;
  action : string;
  entity : string;
  entity_id : Z;
  diff : list (string * (PyValue * PyValue))
}.
End AuditLog.

(** The loop of [create_audit_log] over [new_values.items()], given in
    the order of the dict: one [{'old': ..., 'new': ...}] entry per key
    whose value changed. *)
Fixpoint audit_diff (old_values : gmap string PyValue)
    (new_items : list (string * PyValue)) : list (string * (PyValue * PyValue)) :=
  match new_items with
  | [] => []
  | (key, new_val) :: rest =>
      let old_val := default VNone (old_values !! key) in
      if py_ne old_val new_val then (key, (old_val, new_val)) :: audit_diff old_values rest
      else audit_diff old_values rest
  end.

(** [create_audit_log(self, action, actor_user_id, old_values, new_values)]
    on a model of class [entity] and id [entity_id]: the log, and the
    [audit_logs] table after [audit_log.save()].  [new_values] is given by
    its items, in the order of the dict; [None] is the default argument. *)
Definition create_audit_log (entity : string) (entity_id : Z) (action : string)
    (actor_user_id : Z) (old_values : option (gmap string PyValue))
    (new_values : option (list (string * PyValue)))
    (audit_logs : list AuditLog.t) : AuditLog.t * list AuditLog.t :=
  let diff :=
    match old_values, new_values with
    | Some old, Some (n :: ns) =>
        if decide (size old = 0%nat) then [] else audit_diff old (n :: ns)
    | _, _ => []
    end in
  let audit_log := AuditLog.mk actor_user_id action entity entity_id diff in
  (audit_log, audit_logs ++ [audit_log]).

(** * Vocabulary of the properties *)

Module InvoiceSpec.
Import Invoice.

(** The status written by [update_status] when [is_overdue] cannot fire. *)
Definition settled_status (self : t) : InvoiceStatusEnum :=
  if Dec.geb (amount_paid self) (amount_due self) then PAID
  else if Dec.gtb (amount_paid self) (Dec.of_int 0) then PARTIAL
  else UNPAID.

(** [details['late_fees']], when [details] is set and has the key. *)
Definition late_fees_field (self : t) : option JSON :=
  d ← details self; d !! "late_fees".

(** The audit entries recorded so far. *)
Definition late_fees (self : t) : list JSON :=
  match late_fees_field self with
  | Some (JList fees) => fees
  | _ => []
  end.

(** [details['late_fees']] is absent or a list, so that [.append] is
    defined on it. *)
Definition late_fees_appendable (self : t) : Prop :=
  match late_fees_field self with
  | None | Some (JList _) => True
  | Some _ => False
  end.

End InvoiceSpec.

Module AllocationSpec.

(** Whether the method has a positive weight denominator for these
    units: the guard of the three proportional branches. *)
Definition has_weights (method : AllocationMethodEnum) (units : list Unit.t) : bool :=
  match method with
  | SHARES => Dec.gtb (total_shares units) (Dec.of_int 0)
  | PER_UNIT => bool_decide (units <> [])
  | PER_PERSON => 0 <? total_occupants units
  | METERED | CUSTOM => true
  end.

(** The raw amount of one unit: a quotient and a product of the decimal
    context, neither rounded to cents nor adjusted by a residual. *)
Definition raw_amount (method : AllocationMethodEnum) (units : list Unit.t)
    (total_amount : Dec.Decimal) (u : Unit.t) (a : Dec.Decimal) : Prop :=
  match method with
  | SHARES =>
      match Unit.shares u with
      | Some s =>
          if Dec.truthy s then
            exists w, Dec.div s (total_shares units) = Some w /\ a = Dec.mul w total_amount
          else a = Dec.of_int 0
      | None => a = Dec.of_int 0
      end
  | PER_UNIT =>
      Dec.div total_amount (Dec.of_int (Z.of_nat (length units))) = Some a
  | PER_PERSON =>
      exists q, Dec.div total_amount (Dec.of_int (total_occupants units)) = Some q
                /\ a = Dec.mul q (Dec.of_int (occupancy_or_zero u))
  | METERED | CUSTOM => a = Dec.of_int 0
  end.

(** The unit has no shares: the column is NULL or holds a zero. *)
Definition has_no_shares (u : Unit.t) : Prop :=
  match Unit.shares u with
  | Some s => Dec.truthy s = false
  | None => True
  end.

(** The rows written by the loop of [generate_allocations]: one per item
    of the mapping, in order, each stamped with its own clock reading. *)
Definition rows (utcnow : nat -> Timestamp) (self : Expense.t) (reads : nat)
    (allocations : PyDict.t Dec.Decimal) : list ExpenseAllocation.t :=
  imap (fun k item => Expense.allocation_row self (utcnow (reads + k)%nat) item) allocations.

End AllocationSpec.

Module DecSpec.

(** A well-formed decimal that is not negative. *)
Definition nonneg (d : Dec.Decimal) : Prop := Dec.sign d = false /\ 0 <= Dec.coeff d.

End DecSpec.

Module BuildingSpec.

(** The entrances of a building, a NULL column counting as none. *)
Definition entrance_list (b : Building.t) : list string := default [] (Building.entrances b).

(** The bank accounts of a building, a NULL column counting as none. *)
Definition account_list (b : Building.t) : list BankAccount.t :=
  default [] (Building.bank_accounts b).


(** [add_bank_account] called once per triple, in order. *)
Definition add_bank_accounts (args : list (string * string * string)) (b : Building.t)
  : Building.t :=
  foldl (fun b arg => Building.add_bank_account arg.1.1 arg.1.2 arg.2 b) b args.

End BuildingSpec.

(** * Example data *)

(** An invoice of 100.00 on which nothing was paid, due on day 10, that was
    cancelled. *)
Definition cancelled_invoice : Invoice.t :=
  Invoice.mk 1 1 0 (Dec.cents 10000) (Dec.cents 0) 10 CANCELLED None.

(** A fresh invoice of 0.00, due on day 10. *)
Definition empty_invoice : Invoice.t :=
  Invoice.mk 2 1 0 (Dec.cents 0) (Dec.cents 0) 10 UNPAID None.

(** An invoice of 100.00, paid in full, due on day 10. *)
Definition paid_invoice : Invoice.t :=
  Invoice.mk 3 1 0 (Dec.cents 10000) (Dec.cents 10000) 10 PAID None.

(** An unpaid invoice of 100.00 stored under id 1, and a confirmed payment
    of 40.00 linked to it. *)
Definition open_invoice : Invoice.t :=
  Invoice.mk 1 1 0 (Dec.cents 10000) (Dec.cents 0) 10 UNPAID None.
Definition payment_40 : Payment.t :=
  Payment.mk 1 1 (Some 1) (Dec.cents 4000) true.

(** Building 7 with three active units (shares 0.02, 0.03 and 0.05) and one
    inactive unit, and a unit of building 8. *)
Definition three_units : list Unit.t :=
  [Unit.mk 1 7 (Some (Dec.mk false 20000 (-6))) (Some 2) true;
   Unit.mk 2 7 (Some (Dec.mk false 30000 (-6))) (Some 1) true;
   Unit.mk 3 7 (Some (Dec.mk false 50000 (-6))) (Some 4) true;
   Unit.mk 4 7 (Some (Dec.mk false 10000 (-6))) (Some 1) false;
   Unit.mk 5 8 (Some (Dec.mk false 1000000 (-6))) (Some 3) true].

(** Building 9 with two active units, without shares and without
    occupants. *)
Definition vacant_units : list Unit.t :=
  [Unit.mk 11 9 (Some (Dec.mk false 0 (-6))) (Some 0) true;
   Unit.mk 12 9 None None true].

(** 33.33333333333333333333333333, the quotient of 100.00 by 3 at 28
    digits. *)
Definition third_of_100 : Dec.Decimal := Dec.mk false 3333333333333333333333333333 (-26).

(** Clock readings used in the examples. *)
Definition clock (n : nat) : Timestamp :=
  match n with
  | O => "2024-01-11T00:00:00"
  | _ => "2024-01-11T00:00:01"
  end.

(** An expense of 100.00 of building 9, by SHARES, not allocated yet. *)
Definition vacant_expense : Expense.t :=
  Expense.mk 1 9 (ExpenseCategory.mk 2 9 SHARES) 0 (Dec.cents 10000) false false.

(** Building 5: a unit holding all the shares, with two occupants, and an
    active unit without shares and without occupants. *)
Definition mixed_units : list Unit.t :=
  [Unit.mk 21 5 (Some (Dec.mk false 1000000 (-6))) (Some 2) true;
   Unit.mk 22 5 None (Some 0) true].

(** Building 7 as the [Building] model sees it: entrances A and B, the
    unit 1 in entrance A with an owner and an inactive tenant, the unit 2
    in entrance A with a tenant only, the unit 3 without entrance. *)
Definition building_7 : Building.t :=
  Building.mk 7 (Some ["A"; "B"]) None
    [UnitRow.mk (Unit.mk 1 7 (Some (Dec.mk false 20000 (-6))) (Some 2) true)
       (Some "A") (Some 0) "1" None
       [Membership.mk 1 100 TENANT false true; Membership.mk 2 101 OWNER true false];
     UnitRow.mk (Unit.mk 2 7 (Some (Dec.mk false 30000 (-6))) (Some 1) true)
       (Some "A") (Some 1) "2" None
       [Membership.mk 3 102 TENANT true false];
     UnitRow.mk (Unit.mk 3 7 (Some (Dec.mk false 50000 (-6))) (Some 4) true)
       None None "3" None []].

(** * Properties *)

(** ** Decimal arithmetic *)

Module DecFacts.
Import Dec.

Lemma ndigits_aux_le (fuel : nat) : forall n k,
  1 <= k -> n < 10 ^ k -> ndigits_aux fuel n <= k.
Proof.
  induction fuel as [|fuel IH]; intros n k Hk Hn; simpl; [lia|].
  destruct (Z.ltb_spec n 10) as [Hlt|Hge]; [lia|].
  assert (2 <= k).
  { destruct (Z.eq_dec k 1) as [->|]; [simpl in Hn; lia | lia]. }
  assert (Hq : n / 10 < 10 ^ (k - 1)).
  { apply Z.div_lt_upper_bound; [lia|].
    replace (10 * 10 ^ (k - 1)) with (10 ^ k); [lia|].
    rewrite <- Z.pow_succ_r by lia. f_equal. lia. }
  specialize (IH (n / 10) (k - 1)). lia.
Qed.

Lemma ndigits_le n k : 1 <= k -> n < 10 ^ k -> ndigits n <= k.
Proof. apply ndigits_aux_le. Qed.

(** A coefficient of at most [prec] digits is left alone by [_fix]. *)
Lemma fix_small d : coeff d < 10 ^ prec -> fix_ d = d.
Proof.
  intros Hc. unfold fix_.
  destruct (coeff d =? 0); [done|].
  pose proof (ndigits_le (coeff d) prec ltac:(done) Hc) as Hn.
  destruct (Z.ltb_spec (exp d) (ndigits (coeff d) + exp d - prec)); [lia | done].
Qed.

(** Adding two non-negative decimals is exact as long as the sum fits
    the precision. *)
Lemma add_exact a b :
  sign a = false -> sign b = false -> 0 <= coeff a -> 0 <= coeff b ->
  let e := Z.min (exp a) (exp b) in
  let s := coeff a * 10 ^ (exp a - e) + coeff b * 10 ^ (exp b - e) in
  s < 10 ^ prec ->
  add a b = mk false s e.
Proof.
  intros Ha Hb Hca Hcb e s Hs. unfold add, scaled, signed.
  rewrite Ha, Hb. fold e. fold s.
  assert (0 <= s).
  { unfold s. assert (0 <= 10 ^ (exp a - e)) by (apply Z.pow_nonneg; lia).
    assert (0 <= 10 ^ (exp b - e)) by (apply Z.pow_nonneg; lia). nia. }
  rewrite Z.abs_eq by done.
  replace (if s =? 0 then false && false else s <? 0) with false.
  - apply fix_small. done.
  - destruct (Z.eqb_spec s 0); [done|]. symmetry. apply Z.ltb_ge. done.
Qed.

Lemma add_cents a b :
  0 <= a -> 0 <= b -> a + b < 10 ^ prec -> add (cents a) (cents b) = cents (a + b).
Proof.
  intros Ha Hb Hs.
  assert (Hz : forall c, c * 10 ^ (-2 - Z.min (-2) (-2)) = c).
  { intros c. change (c * 1 = c). lia. }
  pose proof (add_exact (cents a) (cents b) eq_refl eq_refl Ha Hb) as H.
  cbv zeta in H. change (exp (cents a)) with (-2) in H.
  change (exp (cents b)) with (-2) in H. change (coeff (cents a)) with a in H.
  change (coeff (cents b)) with b in H. rewrite (Hz a), (Hz b) in H.
  exact (H Hs).
Qed.

Lemma div_is_Some a b : coeff b <> 0 -> is_Some (div a b).
Proof.
  intros Hb. unfold div.
  destruct (Z.eqb_spec (coeff b) 0); [done|].
  destruct (coeff a =? 0); [eauto|].
  cbv zeta.
  destruct (_ mod _ =? 0); [|eauto].
  destruct (strip_zeros _ _ _); eauto.
Qed.

Lemma scaled_zero e d : coeff d = 0 -> scaled e d = 0.
Proof. unfold scaled, signed. intros ->. by destruct (sign d). Qed.

Lemma cmp_zeros a b : coeff a = 0 -> coeff b = 0 -> cmp a b = Eq.
Proof. intros Ha Hb. unfold cmp. by rewrite !scaled_zero. Qed.

(** A decimal that compares greater than [0] is truthy. *)
Lemma gtb_zero_coeff d : gtb d (of_int 0) = true -> coeff d <> 0.
Proof.
  unfold gtb. intros H Hc.
  rewrite cmp_zeros in H; done.
Qed.

(** ... and a positive int converts to a truthy decimal. *)
Lemma of_int_coeff n : 0 < n -> coeff (of_int n) <> 0.
Proof. simpl. lia. Qed.

Lemma cmp_cents a b : cmp (cents a) (cents b) = (a ?= b).
Proof.
  unfold cmp, scaled, signed. simpl. by rewrite !Z.mul_1_r.
Qed.

Lemma ndigits_aux_pos (fuel : nat) (n : Z) : 1 <= ndigits_aux fuel n.
Proof.
  revert n. induction fuel as [|fuel IH]; intros n; simpl; [lia|].
  destruct (n <? 10); [lia|]. specialize (IH (n / 10)). lia.
Qed.

Lemma strip_zeros_pow (n : nat) : forall c e,
  strip_zeros n (c * 10 ^ Z.of_nat n) e = (c, e + Z.of_nat n).
Proof.
  induction n as [|n IH]; intros c e.
  - simpl. f_equal; lia.
  - rewrite Nat2Z.inj_succ, Z.pow_succ_r by lia. simpl strip_zeros.
    replace (c * (10 * 10 ^ Z.of_nat n)) with (c * 10 ^ Z.of_nat n * 10) by lia.
    rewrite Z.mod_mul, Z.div_mul by lia. simpl. rewrite IH. f_equal. lia.
Qed.

(** Dividing by a positive int that divides the coefficient is exact and
    keeps the exponent of the dividend. *)
Lemma div_exact_int c e n :
  0 < c < 10 ^ prec -> 0 < n -> (n | c) ->
  div (mk false c e) (of_int n) = Some (mk false (c / n) e).
Proof.
  intros Hc Hn [k Hk]. unfold div.
  change (coeff (of_int n)) with (Z.abs n). change (coeff (mk false c e)) with c.
  change (exp (mk false c e)) with e. change (exp (of_int n)) with 0.
  change (sign (mk false c e)) with false. change (sign (of_int n)) with (n <? 0).
  rewrite Z.abs_eq by lia.
  destruct (Z.eqb_spec n 0); [lia|]. destruct (Z.eqb_spec c 0); [lia|].
  replace (n <? 0) with false by (symmetry; apply Z.ltb_ge; lia).
  cbv zeta.
  pose proof (ndigits_aux_pos (S (Z.to_nat (Z.log2 n))) n) as Hdn. fold (ndigits n) in Hdn.
  pose proof (ndigits_le c prec ltac:(done) (proj2 Hc)) as Hdc.
  set (shift := ndigits n - ndigits c + prec + 1) in *.
  assert (Hs : 0 <= shift) by (unfold shift, prec in *; lia).
  destruct (Z.leb_spec 0 shift); [|lia].
  assert (Hq : c * 10 ^ shift = k * 10 ^ shift * n) by (rewrite Hk; lia).
  rewrite Hq, Z.mod_mul, Z.div_mul by lia.
  rewrite Z.eqb_refl.
  replace (e - 0 - (e - 0 - shift)) with shift by lia.
  rewrite <- (Z2Nat.id shift) at 2 by lia.
  rewrite strip_zeros_pow, Z2Nat.id by lia.
  replace (e - 0 - shift + shift) with e by lia.
  rewrite Hk, Z.div_mul by lia.
  rewrite fix_small; [done|]. simpl. nia.
Qed.

(** [sum] over [n] copies of an amount in cents, from a running total in
    cents. *)
Lemma foldl_add_cents {A} (l : list A) : forall a x,
  0 <= a -> 0 <= x -> a + Z.of_nat (length l) * x < 10 ^ prec ->
  foldl add (cents a) ((fun _ => cents x) <$> l) = cents (a + Z.of_nat (length l) * x).
Proof.
  induction l as [|y l IH]; intros a x Ha Hx Hfit.
  - simpl. f_equal. lia.
  - rewrite fmap_cons. simpl foldl. simpl length in *.
    rewrite add_cents by nia. rewrite IH by nia. f_equal. lia.
Qed.

Lemma add_zero_cents x : 0 <= x < 10 ^ prec -> add (of_int 0) (cents x) = cents x.
Proof.
  intros Hx.
  pose proof (add_exact (of_int 0) (cents x) eq_refl eq_refl ltac:(done) (proj1 Hx)) as H.
  cbv zeta in H. change (exp (of_int 0)) with 0 in H. change (exp (cents x)) with (-2) in H.
  change (coeff (of_int 0)) with 0 in H. change (coeff (cents x)) with x in H.
  change (Z.min 0 (-2)) with (-2) in H. change (10 ^ (-2 - -2)) with 1 in H.
  rewrite Z.mul_0_l, Z.mul_1_r, Z.add_0_l in H. exact (H (proj2 Hx)).
Qed.

(** [ndigits] is the length of the decimal expansion. *)
Lemma ndigits_aux_spec (fuel : nat) : forall n,
  0 < n < 2 ^ Z.of_nat fuel ->
  10 ^ (ndigits_aux fuel n - 1) <= n < 10 ^ ndigits_aux fuel n.
Proof.
  induction fuel as [|fuel IH]; intros n Hn; [simpl in Hn; lia|].
  simpl ndigits_aux.
  destruct (Z.ltb_spec n 10) as [Hlt|Hge]; [simpl; lia|].
  rewrite Nat2Z.inj_succ, Z.pow_succ_r in Hn by lia.
  assert (Hq : 0 < n / 10 < 2 ^ Z.of_nat fuel).
  { split; [apply Z.div_str_pos; lia|].
    apply Z.div_lt_upper_bound; lia. }
  specialize (IH _ Hq).
  pose proof (ndigits_aux_pos fuel (n / 10)) as Hpos.
  replace (1 + ndigits_aux fuel (n / 10) - 1) with (Z.succ (ndigits_aux fuel (n / 10) - 1))
    by lia.
  replace (1 + ndigits_aux fuel (n / 10)) with (Z.succ (ndigits_aux fuel (n / 10))) by lia.
  rewrite !Z.pow_succ_r by lia.
  pose proof (Z.div_mod n 10 ltac:(lia)) as Hdm.
  pose proof (Z.mod_pos_bound n 10 ltac:(lia)) as Hmod.
  lia.
Qed.

Lemma ndigits_spec n : 0 < n -> 10 ^ (ndigits n - 1) <= n < 10 ^ ndigits n.
Proof.
  intros Hn. apply ndigits_aux_spec. split; [done|].
  rewrite Nat2Z.inj_succ, Z2Nat.id by apply Z.log2_nonneg.
  apply Z.log2_spec. done.
Qed.

(** Whatever the operand, [_fix] leaves a coefficient of at most [prec]
    digits. *)
Lemma fix_bound d : 0 <= coeff d -> 0 <= coeff (fix_ d) < 10 ^ prec.
Proof.
  intros Hc. unfold fix_.
  destruct (Z.eqb_spec (coeff d) 0) as [->|Hnz]; [done|].
  pose proof (ndigits_spec (coeff d) ltac:(lia)) as [Hlo Hhi].
  set (len := ndigits (coeff d)) in *.
  destruct (Z.ltb_spec (exp d) (len + exp d - prec)) as [Hlong|Hshort].
  - cbv zeta.
    replace (len + exp d - prec - exp d) with (len - prec) by lia.
    set (drop := len - prec).
    assert (Hdrop : 0 < drop) by (unfold drop; lia).
    assert (Hp : 0 < 10 ^ drop) by (apply Z.pow_pos_nonneg; lia).
    assert (Hsplit : 10 ^ len = 10 ^ prec * 10 ^ drop).
    { rewrite <- Z.pow_add_r by (unfold prec; lia). f_equal. unfold drop. lia. }
    assert (Hq : 0 <= coeff d / 10 ^ drop < 10 ^ prec).
    { split; [apply Z.div_pos; lia|]. apply Z.div_lt_upper_bound; lia. }
    match goal with
    | |- context [if ?b then coeff d / 10 ^ drop + 1 else coeff d / 10 ^ drop] =>
        set (q' := if b then coeff d / 10 ^ drop + 1 else coeff d / 10 ^ drop)
    end.
    assert (Hq' : 0 <= q' <= 10 ^ prec) by (unfold q'; destruct (_ || _); lia).
    destruct (Z.ltb_spec prec (ndigits q')) as [Hover|Hfit]; simpl coeff.
    + split; [apply Z.div_pos; lia|].
      apply Z.div_lt_upper_bound; [lia|]. unfold prec in *. lia.
    + split; [lia|].
      destruct (Z.eq_dec q' 0) as [->|]; [done|].
      pose proof (ndigits_spec q' ltac:(lia)) as [_ Hlt].
      eapply Z.lt_le_trans; [exact Hlt|].
      apply Z.pow_le_mono_r; lia.
  - split; [done|]. eapply Z.lt_le_trans; [exact Hhi|].
    apply Z.pow_le_mono_r; lia.
Qed.

(** The arithmetic agrees with the interpreter on the usual probes. *)
Example div_1_3 :
  div (of_int 1) (of_int 3) = Some (mk false 3333333333333333333333333333 (-28)).
Proof. vm_compute. reflexivity. Qed.

Example div_2_3_rounds_up :
  div (of_int 2) (of_int 3) = Some (mk false 6666666666666666666666666667 (-28)).
Proof. vm_compute. reflexivity. Qed.

Example div_exact_strips_zeros :
  div (mk false 20000 (-6)) (mk false 100000 (-6)) = Some (mk false 2 (-1)).
Proof. vm_compute. reflexivity. Qed.

Example add_beyond_precision :
  add (mk false 1 28) (of_int 1) = mk false 1000000000000000000000000000 1.
Proof. vm_compute. reflexivity. Qed.

Example mul_keeps_exponents : mul (mk false 2 (-1)) (cents 100000) = mk false 200000 (-3).
Proof. vm_compute. reflexivity. Qed.

End DecFacts.

(** ** The invoice state machine *)

Module InvoiceFacts.
Import Invoice InvoiceSpec.

(** [x == 0] holds exactly for the zeros, whatever their sign and
    exponent. *)
Lemma eqb_zero_coeff d : Dec.eqb d (Dec.of_int 0) = true -> Dec.coeff d = 0.
Proof.
  unfold Dec.eqb, Dec.cmp. intros H.
  destruct (Z.compare_spec (Dec.scaled (Z.min (Dec.exp d) (Dec.exp (Dec.of_int 0))) d)
              (Dec.scaled (Z.min (Dec.exp d) (Dec.exp (Dec.of_int 0))) (Dec.of_int 0)))
    as [Heq| |]; try done.
  rewrite (DecFacts.scaled_zero (Z.min (Dec.exp d) (Dec.exp (Dec.of_int 0)))
             (Dec.of_int 0) eq_refl) in Heq.
  unfold Dec.scaled in Heq. apply Z.mul_eq_0 in Heq as [Hs|Hp].
  - unfold Dec.signed in Hs. destruct (Dec.sign d); lia.
  - simpl in Hp.
    assert (0 < 10 ^ (Dec.exp d - Z.min (Dec.exp d) 0)) by (apply Z.pow_pos_nonneg; lia).
    lia.
Qed.

Lemma update_status_frame today self :
  let self' := update_status today self in
  amount_due self' = amount_due self /\ amount_paid self' = amount_paid self
  /\ due_date self' = due_date self /\ details self' = details self
  /\ id self' = id self.
Proof.
  unfold update_status.
  repeat match goal with |- context [if ?c then _ else _] => destruct c end; done.
Qed.

(** On an invoice that is neither PAID nor CANCELLED the recomputed status
    follows the four-branch rule on the amounts and the due date. *)
Lemma update_status_rule today self :
  status self <> PAID -> status self <> CANCELLED ->
  status (update_status today self) =
    if Dec.geb (amount_paid self) (amount_due self) then PAID
    else if Dec.gtb (amount_paid self) (Dec.of_int 0) then PARTIAL
    else if due_date self <? today then OVERDUE
    else UNPAID.
Proof.
  intros Hp Hc. unfold update_status, is_overdue.
  destruct (Dec.geb _ _); [done|].
  destruct (Dec.gtb _ _); [done|].
  rewrite bool_decide_eq_false_2.
  - rewrite andb_true_r. by destruct (_ <? _).
  - intros Hin. apply elem_of_cons in Hin as [?|Hin]; [done|].
    apply elem_of_cons in Hin as [?|Hin]; [done|]. by apply elem_of_nil in Hin.
Qed.

Lemma add_late_fee_appends now fee self :
  late_fees_appendable self ->
  add_late_fee now fee self =
    Some (set_details
            (Some (<["late_fees" := JList (late_fees self ++ [late_fee_entry fee now])]>
                     (default ∅ (details self))))
            (set_amount_due (Dec.add (amount_due self) fee) self)).
Proof.
  unfold late_fees_appendable, late_fees, late_fees_field, add_late_fee.
  destruct self as [i u p due paid dd st [d|]]; simpl.
  - destruct (decide (size d = 0%nat)) as [Hz|Hnz].
    + apply map_size_empty_iff in Hz as ->.
      rewrite !lookup_empty, lookup_insert_eq, insert_insert_eq. done.
    + destruct (d !! "late_fees") as [j|] eqn:Hj.
      * rewrite Hj. destruct j; done.
      * rewrite lookup_insert_eq, insert_insert_eq. done.
  - rewrite !lookup_empty, lookup_insert_eq, insert_insert_eq. done.
Qed.

End InvoiceFacts.

(** C3, as stated, fails: recomputing the status of the cancelled invoice,
    the day after its due date, replaces CANCELLED by UNPAID. *)
Lemma C3_counterexample :
  Invoice.status cancelled_invoice = CANCELLED /\
  Invoice.status (Invoice.update_status 11 cancelled_invoice) = UNPAID.
Proof. split; reflexivity. Qed.

(** C3 (amended): [update_status] never produces CANCELLED, and it does not
    keep it either: on a CANCELLED invoice it writes PAID when
    [amount_paid >= amount_due], else PARTIAL when [amount_paid > 0], else
    UNPAID (never OVERDUE, [is_overdue] being false for a cancelled
    invoice). *)
Theorem C3_update_status_replaces_cancelled (today : Z) (inv : Invoice.t) :
  Invoice.status (Invoice.update_status today inv) <> CANCELLED /\
  (Invoice.status inv = CANCELLED ->
   Invoice.status (Invoice.update_status today inv) = InvoiceSpec.settled_status inv).
Proof.
  split.
  - unfold Invoice.update_status.
    repeat match goal with |- context [if ?c then _ else _] => destruct c end; done.
  - intros Hc. unfold Invoice.update_status, Invoice.is_overdue, InvoiceSpec.settled_status.
    rewrite Hc, andb_false_r.
    repeat match goal with |- context [if ?c then _ else _] => destruct c end; done.
Qed.

Lemma C3_update_status_replaces_cancelled_witness :
  Invoice.status cancelled_invoice = CANCELLED /\
  Invoice.status (Invoice.update_status 11 cancelled_invoice) = UNPAID.
Proof.
  split; [reflexivity|].
  exact (proj2 (C3_update_status_replaces_cancelled 11 cancelled_invoice) eq_refl).
Defined.

(** C5: the code departs from the rule on an invoice whose stored status is
    PAID.  The invoice of 0.00 is classified PAID; a late fee of 10.00 then
    leaves nothing paid of 10.00 due, past the due date; the recompute
    writes UNPAID where the rule gives OVERDUE, because the OVERDUE branch
    tests [is_overdue], which consults the status being replaced.  A second
    recompute of the same invoice on the same day writes OVERDUE. *)
Theorem C5_stale_paid_status_hides_overdue :
  let inv1 := Invoice.update_status 11 empty_invoice in
  Invoice.status inv1 = PAID /\
  exists inv2,
    Invoice.add_late_fee "2024-01-11T00:00:00" (Dec.cents 1000) inv1 = Some inv2 /\
    Invoice.status inv2 = PAID /\
    Invoice.amount_due inv2 = Dec.cents 1000 /\
    Invoice.amount_paid inv2 = Dec.cents 0 /\
    Invoice.due_date inv2 = 10 /\
    Invoice.status (Invoice.update_status 11 inv2) = UNPAID /\
    Invoice.status (Invoice.update_status 11 (Invoice.update_status 11 inv2)) = OVERDUE.
Proof.
  split; [reflexivity|].
  eexists. split; [vm_compute; reflexivity|].
  repeat split; reflexivity.
Qed.

(** C10: an invoice with [amount_due == 0] and [amount_paid == 0] is
    classified PAID by [update_status], whatever its due date and its
    previous status. *)
Theorem C10_nothing_due_is_PAID (today : Z) (inv : Invoice.t) :
  Dec.eqb (Invoice.amount_due inv) (Dec.of_int 0) = true ->
  Dec.eqb (Invoice.amount_paid inv) (Dec.of_int 0) = true ->
  Invoice.status (Invoice.update_status today inv) = PAID.
Proof.
  intros Hd Hp.
  apply InvoiceFacts.eqb_zero_coeff in Hd, Hp.
  unfold Invoice.update_status, Dec.geb.
  rewrite DecFacts.cmp_zeros; done.
Qed.

Lemma C10_nothing_due_is_PAID_witness :
  Dec.eqb (Invoice.amount_due empty_invoice) (Dec.of_int 0) = true /\
  Dec.eqb (Invoice.amount_paid empty_invoice) (Dec.of_int 0) = true /\
  Invoice.status (Invoice.update_status 11 empty_invoice) = PAID.
Proof.
  split; [reflexivity|]. split; [reflexivity|].
  apply (C10_nothing_due_is_PAID 11 empty_invoice); reflexivity.
Defined.




(** ** Payments *)

(** C2, as stated, fails: the second application of the payment of 40.00
    raises [amount_paid] from 40.00 to 80.00. *)
Lemma C2_counterexample :
  let once := (Payment.apply_to_invoice 5 {[1 := open_invoice]} payment_40).2 in
  let twice := (Payment.apply_to_invoice 5 once payment_40).2 in
  Invoice.amount_paid <$> once !! 1 = Some (Dec.cents 4000) /\
  Invoice.amount_paid <$> twice !! 1 = Some (Dec.cents 8000).
Proof. split; vm_compute; reflexivity. Qed.

(** C2 (amended): [apply_to_invoice] keeps no trace of the payments already
    applied.  For every confirmed payment linked to a stored invoice, each
    application returns [True], adds the payment's amount to [amount_paid]
    and recomputes the status; applied twice, the amount is added twice.
    With [amount_paid] of [a] cents and a payment of [m > 0] cents (within
    the 28 digits of the context), [amount_paid] is [a + m] cents after the
    first application and [a + 2 m] after the second. *)
Theorem C2_apply_to_invoice_twice_adds_twice
    (today : Z) (invoices : gmap Z Invoice.t) (p : Payment.t) (i : Z) (inv : Invoice.t) :
  Payment.invoice_id p = Some i ->
  invoices !! i = Some inv ->
  Payment.is_confirmed p = true ->
  let paid1 := Dec.add (Invoice.amount_paid inv) (Payment.amount p) in
  let paid2 := Dec.add paid1 (Payment.amount p) in
  let inv1 := Invoice.update_status today (Invoice.set_amount_paid paid1 inv) in
  let inv2 := Invoice.update_status today (Invoice.set_amount_paid paid2 inv1) in
  Payment.apply_to_invoice today invoices p = (true, <[i := inv1]> invoices) /\
  Payment.apply_to_invoice today (<[i := inv1]> invoices) p = (true, <[i := inv2]> invoices) /\
  Invoice.amount_paid inv1 = paid1 /\
  Invoice.amount_paid inv2 = paid2 /\
  (forall a m : Z,
     Invoice.amount_paid inv = Dec.cents a -> Payment.amount p = Dec.cents m ->
     0 <= a -> 0 < m -> a + 2 * m < 10 ^ Dec.prec ->
     paid1 = Dec.cents (a + m) /\ paid2 = Dec.cents (a + 2 * m) /\
     Dec.gtb paid2 paid1 = true).
Proof.
  intros Hid Hinv Hconf paid1 paid2 inv1 inv2.
  assert (Hp1 : Invoice.amount_paid inv1 = paid1)
    by apply (InvoiceFacts.update_status_frame today (Invoice.set_amount_paid paid1 inv)).
  split; [|split; [|split; [done|split]]].
  - unfold Payment.apply_to_invoice. by rewrite Hid, Hinv, Hconf.
  - unfold Payment.apply_to_invoice.
    rewrite Hid, lookup_insert_eq, Hconf, insert_insert_eq.
    fold inv1. by rewrite Hp1.
  - apply (InvoiceFacts.update_status_frame today (Invoice.set_amount_paid paid2 inv1)).
  - intros a m Ha Hm Ha0 Hm0 Hfit. subst paid2 paid1.
    rewrite Ha, Hm.
    rewrite (DecFacts.add_cents a m) by lia.
    rewrite (DecFacts.add_cents (a + m) m) by lia.
    replace (a + m + m) with (a + 2 * m) by lia.
    split; [done|]. split; [done|].
    unfold Dec.gtb. rewrite DecFacts.cmp_cents.
    by rewrite (proj2 (Z.compare_gt_iff _ _)) by lia.
Qed.

Lemma C2_apply_to_invoice_twice_adds_twice_witness :
  Payment.invoice_id payment_40 = Some 1 /\
  ({[1 := open_invoice]} : gmap Z Invoice.t) !! 1 = Some open_invoice /\
  Payment.is_confirmed payment_40 = true /\
  Dec.add (Dec.add (Invoice.amount_paid open_invoice) (Payment.amount payment_40))
          (Payment.amount payment_40) = Dec.cents 8000.
Proof.
  assert (Hstored : ({[1 := open_invoice]} : gmap Z Invoice.t) !! 1 = Some open_invoice)
    by reflexivity.
  split; [reflexivity|]. split; [exact Hstored|]. split; [reflexivity|].
  destruct (C2_apply_to_invoice_twice_adds_twice 5 {[1 := open_invoice]} payment_40 1
              open_invoice eq_refl Hstored eq_refl) as (_ & _ & _ & _ & Hcents).
  destruct (Hcents 0 4000 eq_refl eq_refl) as (_ & H2 & _); [lia | lia | vm_compute; congruence |].
  exact H2.
Defined.

(** ** Allocation of an expense over the units *)

Module AllocationFacts.
Import ExpenseCategory AllocationSpec.

Lemma set_fresh {V} (k : Z) (v : V) (d : PyDict.t V) :
  k ∉ PyDict.keys d -> PyDict.set k v d = d ++ [(k, v)].
Proof.
  induction d as [|[k' v'] d IH]; simpl; [done|].
  intros Hk. apply not_elem_of_cons in Hk as [Hne Hk].
  destruct (decide (k' = k)); [congruence|]. by rewrite IH.
Qed.

(** With pairwise distinct unit ids, the loop appends one item per unit,
    in the order of the units. *)
Lemma assign_fresh amount (f : Unit.t -> Dec.Decimal) (units : list Unit.t) :
  forall d : PyDict.t Dec.Decimal,
  (forall u, u ∈ units -> amount u = Some (f u)) ->
  NoDup (PyDict.keys d ++ (Unit.id <$> units)) ->
  assign amount units d = Some (d ++ ((fun u => (Unit.id u, f u)) <$> units)).
Proof.
  induction units as [|u units IH]; intros d Hf Hnd; simpl.
  - by rewrite app_nil_r.
  - rewrite (Hf u) by left. simpl.
    rewrite fmap_cons in Hnd.
    assert (Hfresh : Unit.id u ∉ PyDict.keys d).
    { apply NoDup_app in Hnd as (_ & Hdisj & _). intros Hin.
      apply (Hdisj _ Hin). left. }
    rewrite set_fresh by done.
    rewrite IH.
    + by rewrite <- app_assoc.
    + intros u' Hu'. apply Hf. by right.
    + unfold PyDict.keys in *. rewrite fmap_app. simpl.
      by rewrite <- app_assoc.
Qed.

(** The primary key of [units] stays a key of the active units of a
    building. *)
Lemma active_units_NoDup (table : list Unit.t) (b : Z) :
  NoDup (Unit.id <$> table) -> NoDup (Unit.id <$> active_units table b).
Proof.
  intros Hpk. apply (sublist_NoDup _ _ Hpk), fmap_sublist, sublist_filter.
Qed.

Lemma Forall2_fmap_items (P : Unit.t -> Dec.Decimal -> Prop) (f : Unit.t -> Dec.Decimal)
    (units : list Unit.t) :
  (forall u, u ∈ units -> P u (f u)) ->
  Forall2 (fun u (item : Z * Dec.Decimal) => item.1 = Unit.id u /\ P u item.2)
          units ((fun u => (Unit.id u, f u)) <$> units).
Proof.
  induction units as [|u units IH]; intros H; simpl; constructor.
  - split; [done|]. apply H. left.
  - apply IH. intros u' Hu'. apply H. by right.
Qed.

(** [calculate_allocations] never raises, and returns either nothing (no
    positive denominator) or one item per active unit of the building,
    in order, holding that unit's raw amount. *)
Lemma calculate_allocations_spec (table : list Unit.t) (self : t)
    (total_amount : Dec.Decimal) :
  NoDup (Unit.id <$> table) ->
  let units := active_units table (building_id self) in
  exists allocations,
    calculate_allocations table self total_amount = Some allocations /\
    if has_weights (allocation_method self) units then
      Forall2 (fun u (item : Z * Dec.Decimal) =>
                 item.1 = Unit.id u /\
                 raw_amount (allocation_method self) units total_amount u item.2)
              units allocations
    else allocations = [].
Proof.
  intros Hpk units.
  pose proof (active_units_NoDup table (building_id self) Hpk) as Hnd.
  fold units in Hnd.
  unfold calculate_allocations, has_weights. fold units.
  destruct (allocation_method self).
  - (* SHARES *)
    destruct (Dec.gtb (total_shares units) (Dec.of_int 0)) eqn:Hpos; [|eauto].
    apply DecFacts.gtb_zero_coeff in Hpos.
    set (f := fun u => default (Dec.of_int 0)
                         (shares_amount (total_shares units) total_amount u)).
    assert (Hf : forall u, shares_amount (total_shares units) total_amount u = Some (f u)).
    { intros u. unfold f, shares_amount.
      destruct (Unit.shares u) as [s|]; [|done].
      destruct (Dec.truthy s); [|done].
      destruct (DecFacts.div_is_Some s (total_shares units) Hpos) as [w ->]. done. }
    eexists. split; [apply (assign_fresh _ f); [by intros | by simpl]|].
    simpl app. apply (Forall2_fmap_items (raw_amount SHARES units total_amount) f).
    intros u _. unfold raw_amount.
    specialize (Hf u). unfold shares_amount in Hf.
    destruct (Unit.shares u) as [s|]; [|by inversion Hf].
    destruct (Dec.truthy s); [|by inversion Hf].
    destruct (Dec.div s (total_shares units)) as [w|]; [|done].
    exists w. split; [done|]. by inversion Hf.
  - (* PER_UNIT *)
    destruct units as [|u0 units'] eqn:Hu.
    { rewrite bool_decide_eq_false_2 by (intros H; by apply H). eauto. }
    rewrite bool_decide_eq_true_2 by done.
    destruct (DecFacts.div_is_Some total_amount
                (Dec.of_int (Z.of_nat (length (u0 :: units'))))) as [q Hq].
    { apply DecFacts.of_int_coeff. simpl length. lia. }
    rewrite Hq. simpl mbind.
    eexists. split; [apply (assign_fresh _ (fun _ => q)); [done | by simpl]|].
    simpl app.
    by apply (Forall2_fmap_items (raw_amount PER_UNIT (u0 :: units') total_amount)
                (fun _ => q)).
  - (* PER_PERSON *)
    destruct (Z.ltb_spec 0 (total_occupants units)) as [Hpos|]; [|eauto].
    destruct (DecFacts.div_is_Some total_amount
                (Dec.of_int (total_occupants units))) as [q Hq].
    { by apply DecFacts.of_int_coeff. }
    rewrite Hq. simpl mbind.
    eexists.
    split; [apply (assign_fresh _ (fun u => Dec.mul q (Dec.of_int (occupancy_or_zero u))));
            [done | by simpl]|].
    simpl app.
    apply (Forall2_fmap_items (raw_amount PER_PERSON units total_amount)
             (fun u => Dec.mul q (Dec.of_int (occupancy_or_zero u)))).
    intros u _. unfold raw_amount. eauto.
  - (* METERED *)
    eexists. split; [apply (assign_fresh _ (fun _ => Dec.of_int 0)); [done | by simpl]|].
    simpl app.
    by apply (Forall2_fmap_items (raw_amount METERED units total_amount)
                (fun _ => Dec.of_int 0)).
  - (* CUSTOM *)
    eexists. split; [apply (assign_fresh _ (fun _ => Dec.of_int 0)); [done | by simpl]|].
    simpl app.
    by apply (Forall2_fmap_items (raw_amount CUSTOM units total_amount)
                (fun _ => Dec.of_int 0)).
Qed.

(** X3.  When the number of units divides the total in cents, PER_UNIT
    gives every unit the exact quotient and the amounts add up to the
    total. *)
Lemma per_unit_exact_reconciles (table : list Unit.t) (self : t) (c : Z) :
  NoDup (Unit.id <$> table) ->
  allocation_method self = PER_UNIT ->
  let units := active_units table (building_id self) in
  units <> [] ->
  0 < c < 10 ^ Dec.prec ->
  (Z.of_nat (length units) | c) ->
  calculate_allocations table self (Dec.cents c)
    = Some ((fun u => (Unit.id u, Dec.cents (c / Z.of_nat (length units)))) <$> units) /\
  py_sum (PyDict.values
            ((fun u => (Unit.id u, Dec.cents (c / Z.of_nat (length units)))) <$> units))
    = Dec.cents c.
Proof.
  intros Hpk Hm units Hne Hc Hdiv.
  pose proof (active_units_NoDup table (building_id self) Hpk) as Hnd. fold units in Hnd.
  assert (Hn : 0 < Z.of_nat (length units)) by (destruct units; [done | simpl; lia]).
  split.
  - unfold calculate_allocations. fold units. rewrite Hm.
    destruct units as [|u0 units'] eqn:Hu; [done|].
    unfold Dec.cents at 1. rewrite DecFacts.div_exact_int by done.
    cbn [mbind option_bind].
    by rewrite (assign_fresh _ (fun _ => Dec.cents (c / Z.of_nat (length (u0 :: units'))))).
  - unfold PyDict.values. rewrite <- list_fmap_compose.
    destruct Hdiv as [k Hk].
    assert (Hk0 : 0 < k) by nia.
    rewrite Hk, Z.div_mul by lia.
    destruct units as [|u0 units']; [done|].
    unfold py_sum. rewrite fmap_cons. simpl foldl.
    change ((snd ∘ (fun u => (Unit.id u, Dec.cents k))) u0) with (Dec.cents k).
    rewrite DecFacts.add_zero_cents by nia.
    change (snd ∘ (fun u => (Unit.id u, Dec.cents k))) with (fun _ : Unit.t => Dec.cents k).
    rewrite DecFacts.foldl_add_cents.
    + f_equal. simpl length. lia.
    + lia.
    + lia.
    + simpl length in *. nia.
Qed.

(** SHARES over shares 0.02, 0.03 and 0.05 splits 1000.00 as 2 : 3 : 5;
    the amounts come out with three decimal places. *)
Example shares_2_3_5 :
  calculate_allocations three_units (mk 1 7 SHARES) (Dec.cents 100000)
    = Some [(1, Dec.mk false 200000 (-3)); (2, Dec.mk false 300000 (-3));
            (3, Dec.mk false 500000 (-3))].
Proof. vm_compute. reflexivity. Qed.

(** PER_PERSON over 2, 1 and 4 occupants: 100.00 / 7 is not exact, and the
    three products are 3 units of the last digit above 100.00 in total. *)
Example per_person_2_1_4 :
  calculate_allocations three_units (mk 1 7 PER_PERSON) (Dec.cents 10000)
    = Some [(1, Dec.mk false 2857142857142857142857142858 (-26));
            (2, Dec.mk false 1428571428571428571428571429 (-26));
            (3, Dec.mk false 5714285714285714285714285716 (-26))].
Proof. vm_compute. reflexivity. Qed.

End AllocationFacts.

(** C1, as stated, fails: PER_UNIT over the three active units of building
    7 returns 100.00 / 3 three times, unrounded, and these add up to
    99.99999999999999999999999999, which is not 100.00. *)
Lemma C1_counterexample :
  exists allocations,
    ExpenseCategory.calculate_allocations three_units (ExpenseCategory.mk 1 7 PER_UNIT)
      (Dec.cents 10000) = Some allocations /\
    py_sum (PyDict.values allocations) = Dec.mk false 9999999999999999999999999999 (-26) /\
    Dec.eqb (py_sum (PyDict.values allocations)) (Dec.cents 10000) = false.
Proof.
  eexists. split; [vm_compute; reflexivity|]. split; vm_compute; reflexivity.
Qed.

(** C1 (amended): for the SHARES, PER_UNIT and PER_PERSON methods
    [calculate_allocations] returns the raw proportional amounts and does
    nothing more.  With a positive denominator the mapping has one item per
    active unit of the building, holding [(shares / total shares) * total]
    (0 for a unit without shares), [total / N], or
    [(total / occupants) * occupancy], each computed at the 28 digits of the
    decimal context; otherwise the mapping is empty.  No amount is rounded
    to 2 decimal places and no residual is assigned, so the returned
    amounts are not reconciled with [total_amount]. *)
Theorem C1_allocations_are_raw_proportions
    (table : list Unit.t) (cat : ExpenseCategory.t) (total_amount : Dec.Decimal) :
  NoDup (Unit.id <$> table) ->
  ExpenseCategory.allocation_method cat ∈ [SHARES; PER_UNIT; PER_PERSON] ->
  let units := active_units table (ExpenseCategory.building_id cat) in
  exists allocations,
    ExpenseCategory.calculate_allocations table cat total_amount = Some allocations /\
    if AllocationSpec.has_weights (ExpenseCategory.allocation_method cat) units then
      Forall2 (fun u (item : Z * Dec.Decimal) =>
                 item.1 = Unit.id u /\
                 AllocationSpec.raw_amount (ExpenseCategory.allocation_method cat)
                   units total_amount u item.2)
              units allocations
    else allocations = [].
Proof.
  intros Hpk _. by apply AllocationFacts.calculate_allocations_spec.
Qed.

Lemma C1_allocations_are_raw_proportions_witness :
  NoDup (Unit.id <$> three_units) /\
  exists allocations,
    ExpenseCategory.calculate_allocations three_units (ExpenseCategory.mk 1 7 PER_UNIT)
      (Dec.cents 10000) = Some allocations /\
    Forall2 (fun u (item : Z * Dec.Decimal) =>
               item.1 = Unit.id u /\ Dec.div (Dec.cents 10000) (Dec.of_int 3) = Some item.2)
            (active_units three_units 7) allocations.
Proof.
  assert (Hpk : NoDup (Unit.id <$> three_units)) by (apply (bool_decide_unpack _); by vm_compute).
  split; [exact Hpk|].
  apply (C1_allocations_are_raw_proportions three_units (ExpenseCategory.mk 1 7 PER_UNIT)
           (Dec.cents 10000) Hpk).
  simpl. apply elem_of_cons. right. apply elem_of_cons. by left.
Defined.

(** C7, as stated, fails: the three amounts are 33.33333333333333333333333333
    each; none is 33.33 or 33.34, and their sum is not 100.00. *)
Lemma C7_counterexample :
  exists allocations,
    ExpenseCategory.calculate_allocations three_units (ExpenseCategory.mk 1 7 PER_UNIT)
      (Dec.cents 10000) = Some allocations /\
    PyDict.values allocations = [third_of_100; third_of_100; third_of_100] /\
    Dec.eqb third_of_100 (Dec.cents 3333) = false /\
    Dec.eqb third_of_100 (Dec.cents 3334) = false /\
    Dec.eqb (py_sum (PyDict.values allocations)) (Dec.cents 10000) = false.
Proof.
  eexists. split; [vm_compute; reflexivity|]. repeat split; vm_compute; reflexivity.
Qed.

(** C7 (amended): a PER_UNIT allocation of 100.00 across exactly 3 eligible
    units gives each of them the same unrounded amount
    33.33333333333333333333333333; no residual cent is assigned, and the
    amounts sum to 99.99999999999999999999999999, short of 100.00. *)
Theorem C7_per_unit_100_over_3
    (table : list Unit.t) (cat : ExpenseCategory.t) (u1 u2 u3 : Unit.t) :
  NoDup (Unit.id <$> table) ->
  ExpenseCategory.allocation_method cat = PER_UNIT ->
  active_units table (ExpenseCategory.building_id cat) = [u1; u2; u3] ->
  ExpenseCategory.calculate_allocations table cat (Dec.cents 10000)
    = Some [(Unit.id u1, third_of_100); (Unit.id u2, third_of_100);
            (Unit.id u3, third_of_100)] /\
  py_sum [third_of_100; third_of_100; third_of_100]
    = Dec.mk false 9999999999999999999999999999 (-26) /\
  Dec.cmp (py_sum [third_of_100; third_of_100; third_of_100]) (Dec.cents 10000) = Lt.
Proof.
  intros Hpk Hm Hu.
  pose proof (AllocationFacts.active_units_NoDup table (ExpenseCategory.building_id cat) Hpk)
    as Hnd.
  split; [|split; vm_compute; reflexivity].
  unfold ExpenseCategory.calculate_allocations. rewrite Hm, Hu.
  change (Dec.div (Dec.cents 10000) (Dec.of_int (Z.of_nat (length [u1; u2; u3]))))
    with (Dec.div (Dec.cents 10000) (Dec.of_int 3)).
  replace (Dec.div (Dec.cents 10000) (Dec.of_int 3)) with (Some third_of_100)
    by (vm_compute; reflexivity).
  cbn [mbind option_bind].
  rewrite (AllocationFacts.assign_fresh _ (fun _ => third_of_100)); [done|done|].
  rewrite Hu in Hnd. exact Hnd.
Qed.

Lemma C7_per_unit_100_over_3_witness :
  NoDup (Unit.id <$> three_units) /\
  active_units three_units 7 = [Unit.mk 1 7 (Some (Dec.mk false 20000 (-6))) (Some 2) true;
                                Unit.mk 2 7 (Some (Dec.mk false 30000 (-6))) (Some 1) true;
                                Unit.mk 3 7 (Some (Dec.mk false 50000 (-6))) (Some 4) true] /\
  ExpenseCategory.calculate_allocations three_units (ExpenseCategory.mk 1 7 PER_UNIT)
    (Dec.cents 10000) = Some [(1, third_of_100); (2, third_of_100); (3, third_of_100)].
Proof.
  assert (Hpk : NoDup (Unit.id <$> three_units)) by (apply (bool_decide_unpack _); by vm_compute).
  assert (Hu : active_units three_units 7 =
               [Unit.mk 1 7 (Some (Dec.mk false 20000 (-6))) (Some 2) true;
                Unit.mk 2 7 (Some (Dec.mk false 30000 (-6))) (Some 1) true;
                Unit.mk 3 7 (Some (Dec.mk false 50000 (-6))) (Some 4) true])
    by reflexivity.
  split; [exact Hpk|]. split; [exact Hu|].
  exact (proj1 (C7_per_unit_100_over_3 three_units (ExpenseCategory.mk 1 7 PER_UNIT)
                  _ _ _ Hpk eq_refl Hu)).
Defined.

(** C6, as stated, fails: building 9 has two active units whose shares sum
    to 0 and whose occupants sum to 0; for SHARES and for PER_PERSON the
    returned mapping is empty, so neither unit is given an amount of 0. *)
Lemma C6_counterexample :
  length (active_units vacant_units 9) = 2%nat /\
  Dec.eqb (total_shares (active_units vacant_units 9)) (Dec.of_int 0) = true /\
  total_occupants (active_units vacant_units 9) = 0 /\
  ExpenseCategory.calculate_allocations vacant_units (ExpenseCategory.mk 2 9 SHARES)
    (Dec.cents 10000) = Some [] /\
  ExpenseCategory.calculate_allocations vacant_units (ExpenseCategory.mk 3 9 PER_PERSON)
    (Dec.cents 10000) = Some [] /\
  PyDict.get 11 ([] : PyDict.t Dec.Decimal) = None.
Proof. repeat split; vm_compute; reflexivity. Qed.

(** C6 (amended): when the weight denominator is zero - SHARES with the
    shares of the eligible units summing to 0, PER_PERSON with their
    occupancy counts summing to 0 - [calculate_allocations] returns the
    empty mapping: no eligible unit is allocated anything, not even 0. *)
Theorem C6_zero_denominator_allocates_nothing
    (table : list Unit.t) (cat : ExpenseCategory.t) (total_amount : Dec.Decimal) :
  let units := active_units table (ExpenseCategory.building_id cat) in
  (ExpenseCategory.allocation_method cat = SHARES /\
   Dec.eqb (total_shares units) (Dec.of_int 0) = true) \/
  (ExpenseCategory.allocation_method cat = PER_PERSON /\ total_occupants units = 0) ->
  ExpenseCategory.calculate_allocations table cat total_amount = Some [].
Proof.
  intros units [[Hm Hz]|[Hm Hz]]; unfold ExpenseCategory.calculate_allocations;
    fold units; rewrite Hm.
  - unfold Dec.eqb in Hz. unfold Dec.gtb.
    by destruct (Dec.cmp (total_shares units) (Dec.of_int 0)).
  - by rewrite Hz.
Qed.

Lemma C6_zero_denominator_allocates_nothing_witness :
  Dec.eqb (total_shares (active_units vacant_units 9)) (Dec.of_int 0) = true /\
  ExpenseCategory.calculate_allocations vacant_units (ExpenseCategory.mk 2 9 SHARES)
    (Dec.cents 10000) = Some [].
Proof.
  split; [reflexivity|].
  apply (C6_zero_denominator_allocates_nothing vacant_units (ExpenseCategory.mk 2 9 SHARES)).
  left. split; reflexivity.
Defined.

(** ** Generating the allocation rows *)

Module ExpenseFacts.
Import Expense AllocationSpec.

Lemma save_allocations utcnow self (allocations : PyDict.t Dec.Decimal) :
  forall db,
  foldl (save_allocation utcnow self) db allocations =
    mkSession (units db)
      (expense_allocations db ++ rows utcnow self (clock_reads db) allocations)
      (clock_reads db + length allocations).
Proof.
  unfold rows.
  induction allocations as [|item allocations IH]; intros [us als n]; simpl.
  - by rewrite app_nil_r, Nat.add_0_r.
  - rewrite IH. simpl. f_equal.
    + rewrite <- app_assoc. simpl. rewrite Nat.add_0_r. do 2 f_equal.
      apply imap_ext. intros k x _. simpl. do 2 f_equal. lia.
    + lia.
Qed.

Lemma rows_length utcnow self reads allocations :
  length (rows utcnow self reads allocations) = length allocations.
Proof. apply length_imap. Qed.

Lemma rows_unit_ids utcnow self reads allocations :
  ExpenseAllocation.unit_id <$> rows utcnow self reads allocations
  = PyDict.keys allocations.
Proof.
  unfold rows, PyDict.keys. revert reads.
  induction allocations as [|item allocations IH]; intros reads; [done|].
  rewrite imap_cons, !fmap_cons. f_equal.
  rewrite <- (IH (S reads)). f_equal. apply imap_ext. intros k x _. simpl.
  do 2 f_equal. lia.
Qed.

(** Every row carries the snapshot of the method and of the total. *)
Lemma rows_snapshot utcnow self reads allocations row :
  row ∈ rows utcnow self reads allocations ->
  ExpenseAllocation.expense_id row = id self /\
  exists now,
    ExpenseAllocation.formula_snapshot row =
      JObj [("method", JStr (AllocationMethodEnum_value
                               (ExpenseCategory.allocation_method (category self))));
            ("total_amount", JFloat (float_of (amount_total self)));
            ("calculation_date", JStr now)].
Proof.
  unfold rows. intros Hin. apply elem_of_lookup_imap in Hin as (k & item & -> & _).
  split; [done|]. by eexists.
Qed.

Lemma Forall2_keys (P : Unit.t -> Dec.Decimal -> Prop) (us : list Unit.t)
    (allocations : PyDict.t Dec.Decimal) :
  Forall2 (fun u (item : Z * Dec.Decimal) => item.1 = Unit.id u /\ P u item.2)
          us allocations ->
  PyDict.keys allocations = Unit.id <$> us.
Proof.
  induction 1 as [|u item us allocations [Hk _] _ IH]; [done|].
  unfold PyDict.keys in *. by rewrite !fmap_cons, Hk, IH.
Qed.

End ExpenseFacts.

(** C4, as stated, fails on its last part: building 9 has two eligible
    units, and the first run of [generate_allocations] on the SHARES
    expense writes no allocation row at all, while it reports success and
    sets [is_allocated]. *)
Lemma C4_counterexample :
  let db := mkSession vacant_units [] 0 in
  length (active_units (units db) 9) = 2%nat /\
  Expense.generate_allocations clock db vacant_expense
    = Some (true, Expense.set_is_allocated true vacant_expense, db) /\
  expense_allocations db = [].
Proof. repeat split; vm_compute; reflexivity. Qed.

(** C4 (amended): [generate_allocations] is a guarded one-shot operation.
    On an expense whose [is_allocated] is already true it returns [False],
    raises nothing and leaves the expense and the session as they are.  On
    an expense with [is_allocated] false it returns [True], sets
    [is_allocated] and appends one allocation row per item of the mapping
    returned by [calculate_allocations], each with the expense's id and a
    snapshot of the method and the total: that is one row per eligible
    unit when the method has a positive weight denominator, and no row
    otherwise. *)
Theorem C4_generate_allocations_one_shot
    (utcnow : nat -> Timestamp) (db : Session) (e : Expense.t) :
  NoDup (Unit.id <$> units db) ->
  let cat := Expense.category e in
  let eligible := active_units (units db) (ExpenseCategory.building_id cat) in
  if Expense.is_allocated e then
    Expense.generate_allocations utcnow db e = Some (false, e, db)
  else
    exists new_rows,
      Expense.generate_allocations utcnow db e =
        Some (true, Expense.set_is_allocated true e,
              mkSession (units db) (expense_allocations db ++ new_rows)
                        (clock_reads db + length new_rows)) /\
      ExpenseAllocation.unit_id <$> new_rows =
        (if AllocationSpec.has_weights (ExpenseCategory.allocation_method cat) eligible
         then Unit.id <$> eligible else []) /\
      forall row, row ∈ new_rows ->
        ExpenseAllocation.expense_id row = Expense.id e /\
        exists now,
          ExpenseAllocation.formula_snapshot row =
            JObj [("method", JStr (AllocationMethodEnum_value
                                     (ExpenseCategory.allocation_method cat)));
                  ("total_amount", JFloat (float_of (Expense.amount_total e)));
                  ("calculation_date", JStr now)].
Proof.
  intros Hpk cat eligible. unfold Expense.generate_allocations.
  destruct (Expense.is_allocated e); [done|].
  destruct (AllocationFacts.calculate_allocations_spec (units db) cat
              (Expense.amount_total e) Hpk) as (allocations & Hcalc & Hshape).
  fold cat. rewrite Hcalc. cbn [mbind option_bind].
  exists (AllocationSpec.rows utcnow e (clock_reads db) allocations).
  split; [|split].
  - by rewrite ExpenseFacts.save_allocations, ExpenseFacts.rows_length.
  - rewrite ExpenseFacts.rows_unit_ids. fold eligible in Hshape.
    destruct (AllocationSpec.has_weights _ _).
    + by apply ExpenseFacts.Forall2_keys in Hshape.
    + by rewrite Hshape.
  - apply ExpenseFacts.rows_snapshot.
Qed.

Lemma C4_generate_allocations_one_shot_witness :
  NoDup (Unit.id <$> three_units) /\
  exists new_rows,
    Expense.generate_allocations clock (mkSession three_units [] 0)
      (Expense.mk 2 7 (ExpenseCategory.mk 1 7 PER_UNIT) 0 (Dec.cents 10000) false false)
    = Some (true,
            Expense.mk 2 7 (ExpenseCategory.mk 1 7 PER_UNIT) 0 (Dec.cents 10000) true false,
            mkSession three_units new_rows (length new_rows)) /\
    ExpenseAllocation.unit_id <$> new_rows = [1; 2; 3].
Proof.
  assert (Hpk : NoDup (Unit.id <$> three_units)) by (apply (bool_decide_unpack _); by vm_compute).
  split; [exact Hpk|].
  destruct (C4_generate_allocations_one_shot clock (mkSession three_units [] 0)
              (Expense.mk 2 7 (ExpenseCategory.mk 1 7 PER_UNIT) 0 (Dec.cents 10000) false false)
              Hpk) as (new_rows & Hrun & Hids & _).
  exists new_rows. split; [exact Hrun | exact Hids].
Defined.

(** C9: for a SHARES expense, not allocated yet, of a building whose
    eligible units' shares sum to 0, [generate_allocations] writes no
    allocation row, sets [is_allocated] and returns [True]; every later
    call is then skipped, so the expense stays marked allocated with no
    row. *)
Theorem C9_zero_shares_allocated_without_rows
    (utcnow : nat -> Timestamp) (db : Session) (e : Expense.t) :
  Expense.is_allocated e = false ->
  ExpenseCategory.allocation_method (Expense.category e) = SHARES ->
  Dec.eqb (total_shares (active_units (units db)
                           (ExpenseCategory.building_id (Expense.category e))))
          (Dec.of_int 0) = true ->
  Expense.generate_allocations utcnow db e
    = Some (true, Expense.set_is_allocated true e, db) /\
  Expense.is_allocated (Expense.set_is_allocated true e) = true /\
  Expense.generate_allocations utcnow db (Expense.set_is_allocated true e)
    = Some (false, Expense.set_is_allocated true e, db).
Proof.
  intros Hna Hm Hz. split; [|split; [done|done]].
  unfold Expense.generate_allocations, ExpenseCategory.calculate_allocations.
  rewrite Hna, Hm.
  unfold Dec.eqb in Hz. unfold Dec.gtb.
  by destruct (Dec.cmp _ (Dec.of_int 0)).
Qed.

Lemma C9_zero_shares_allocated_without_rows_witness :
  Dec.eqb (total_shares (active_units vacant_units 9)) (Dec.of_int 0) = true /\
  Expense.generate_allocations clock (mkSession vacant_units [] 0) vacant_expense
    = Some (true, Expense.set_is_allocated true vacant_expense,
            mkSession vacant_units [] 0).
Proof.
  split; [reflexivity|].
  exact (proj1 (C9_zero_shares_allocated_without_rows clock (mkSession vacant_units [] 0)
                  vacant_expense eq_refl eq_refl eq_refl)).
Defined.

(** * Further properties of the allocation *)

Module DecSigns.
Import Dec DecSpec.

Lemma fix_nonneg d : nonneg d -> nonneg (fix_ d).
Proof.
  intros [Hs Hc]. split; [|by apply DecFacts.fix_bound].
  unfold fix_. repeat match goal with |- context [if ?c then _ else _] => destruct c end;
    simpl; done.
Qed.

Lemma of_int_nonneg n : 0 <= n -> nonneg (of_int n).
Proof.
  intros Hn. split; simpl; [|lia]. apply Z.ltb_ge. done.
Qed.

Lemma add_nonneg a b : nonneg a -> nonneg b -> nonneg (add a b).
Proof.
  intros [Hsa Hca] [Hsb Hcb]. unfold add, scaled, signed. rewrite Hsa, Hsb.
  set (e := Z.min (exp a) (exp b)).
  set (s := coeff a * 10 ^ (exp a - e) + coeff b * 10 ^ (exp b - e)).
  assert (0 <= s).
  { unfold s. assert (0 <= 10 ^ (exp a - e)) by (apply Z.pow_nonneg; lia).
    assert (0 <= 10 ^ (exp b - e)) by (apply Z.pow_nonneg; lia). nia. }
  apply fix_nonneg. split; simpl; [|lia].
  destruct (Z.eqb_spec s 0); [done|]. apply Z.ltb_ge. done.
Qed.

Lemma mul_nonneg a b : nonneg a -> nonneg b -> nonneg (mul a b).
Proof.
  intros [Hsa Hca] [Hsb Hcb]. unfold mul. apply fix_nonneg.
  split; simpl; [by rewrite Hsa, Hsb | nia].
Qed.

Lemma strip_zeros_nonneg (fuel : nat) : forall c e, 0 <= c -> 0 <= (strip_zeros fuel c e).1.
Proof.
  induction fuel as [|fuel IH]; intros c e Hc; simpl; [done|].
  destruct (c mod 10 =? 0); [|done]. apply IH. apply Z.div_pos; lia.
Qed.

Lemma div_nonneg a b q : nonneg a -> nonneg b -> div a b = Some q -> nonneg q.
Proof.
  intros [Hsa Hca] [Hsb Hcb]. unfold div. rewrite Hsa, Hsb.
  destruct (Z.eqb_spec (coeff b) 0) as [|Hb]; [done|].
  destruct (Z.eqb_spec (coeff a) 0) as [|Ha].
  { intros [= <-]. by apply fix_nonneg. }
  cbv zeta.
  set (shift := ndigits (coeff b) - ndigits (coeff a) + prec + 1).
  set (num := if 0 <=? shift then coeff a * 10 ^ shift else coeff a).
  set (den := if 0 <=? shift then coeff b else coeff b * 10 ^ (- shift)).
  assert (Hnum : 0 <= num).
  { unfold num. destruct (Z.leb_spec 0 shift); [|done].
    assert (0 <= 10 ^ shift) by (apply Z.pow_nonneg; lia). nia. }
  assert (Hden : 0 < den).
  { unfold den. destruct (Z.leb_spec 0 shift); [lia|].
    assert (0 < 10 ^ (- shift)) by (apply Z.pow_pos_nonneg; lia). nia. }
  assert (Hq : 0 <= num / den) by (apply Z.div_pos; lia).
  destruct (num mod den =? 0).
  - pose proof (strip_zeros_nonneg (Z.to_nat (exp a - exp b - (exp a - exp b - shift)))
                  (num / den) (exp a - exp b - shift) Hq) as Hstrip.
    destruct (strip_zeros _ _ _) as [c e']. intros [= <-].
    apply fix_nonneg. split; simpl; [done|exact Hstrip].
  - intros [= <-]. apply fix_nonneg. split; simpl; [done|].
    destruct (_ =? 0); lia.
Qed.

Lemma py_sum_nonneg (xs : list Decimal) : Forall nonneg xs -> nonneg (py_sum xs).
Proof.
  unfold py_sum. assert (H0 : nonneg (of_int 0)) by (by apply of_int_nonneg).
  revert H0. generalize (of_int 0).
  induction xs as [|x xs IH]; intros acc Hacc Hxs; simpl; [done|].
  apply Forall_cons in Hxs as [Hx Hxs]. apply IH; [|done]. by apply add_nonneg.
Qed.

(** A product with a zero is a zero. *)
Lemma mul_zero_r a b : coeff b = 0 -> coeff (mul a b) = 0.
Proof.
  intros Hb. unfold mul, fix_. simpl. rewrite Hb, Z.mul_0_r. done.
Qed.

Lemma eqb_zero d : coeff d = 0 -> eqb d (of_int 0) = true.
Proof. intros H. unfold eqb. by rewrite DecFacts.cmp_zeros. Qed.

End DecSigns.

Module AssignFacts.
Import ExpenseCategory.

Lemma set_keys {V} (k : Z) (v : V) (d : PyDict.t V) :
  forall k', k' ∈ PyDict.keys (PyDict.set k v d) -> k' = k \/ k' ∈ PyDict.keys d.
Proof.
  unfold PyDict.keys. induction d as [|[k0 v0] d IH]; intros k' Hin; simpl in *.
  - apply list_elem_of_singleton in Hin. by left.
  - destruct (decide (k0 = k)) as [->|Hne]; simpl in Hin.
    + apply elem_of_cons in Hin as [->|Hin]; [by left|]. right. by right.
    + apply elem_of_cons in Hin as [->|Hin]; [right; by left|].
      destruct (IH _ Hin) as [->|Hd]; [by left|]. right. by right.
Qed.

Lemma set_values {V} (P : V -> Prop) (k : Z) (v : V) (d : PyDict.t V) :
  P v -> Forall P (PyDict.values d) -> Forall P (PyDict.values (PyDict.set k v d)).
Proof.
  unfold PyDict.values. intros Hv. induction d as [|[k0 v0] d IH]; intros Hd; simpl in *.
  - by constructor.
  - apply Forall_cons in Hd as [H0 Hd].
    destruct (decide (k0 = k)); simpl; constructor; auto.
Qed.

(** The keys of the mapping come from the units gone through. *)
Lemma assign_keys amount (us : list Unit.t) : forall d d',
  assign amount us d = Some d' ->
  forall k, k ∈ PyDict.keys d' -> k ∈ PyDict.keys d \/ k ∈ Unit.id <$> us.
Proof.
  induction us as [|u us IH]; intros d d' Hrun k Hk; simpl in Hrun.
  - injection Hrun as <-. by left.
  - destruct (amount u) as [a|]; [|done]. simpl in Hrun.
    destruct (IH _ _ Hrun k Hk) as [Hd|Hus].
    + destruct (set_keys _ _ _ _ Hd) as [->|Hd']; [right; left | by left].
    + right. rewrite fmap_cons. by right.
Qed.

(** Whatever holds of every amount computed holds of every value stored. *)
Lemma assign_values (P : Dec.Decimal -> Prop) amount (us : list Unit.t) : forall d d',
  (forall u a, u ∈ us -> amount u = Some a -> P a) ->
  Forall P (PyDict.values d) ->
  assign amount us d = Some d' -> Forall P (PyDict.values d').
Proof.
  induction us as [|u us IH]; intros d d' Hamt Hd Hrun; simpl in Hrun.
  - by injection Hrun as <-.
  - destruct (amount u) as [a|] eqn:Ha; [|done]. simpl in Hrun.
    apply (IH _ _ (fun u' a' Hu' => Hamt u' a' (list_elem_of_further _ _ _ Hu'))
             (set_values P _ _ _ (Hamt u a (list_elem_of_here _ _) Ha) Hd) Hrun).
Qed.

Lemma calculate_allocations_keys (table : list Unit.t) (self : t) total_amount allocations :
  calculate_allocations table self total_amount = Some allocations ->
  forall k, k ∈ PyDict.keys allocations ->
  k ∈ Unit.id <$> active_units table (building_id self).
Proof.
  unfold calculate_allocations. intros Hrun k Hk.
  assert (Hnil : forall l : PyDict.t Dec.Decimal,
             Some [] = Some l -> k ∈ PyDict.keys l -> False).
  { intros l [= <-] Hin. by apply elem_of_nil in Hin. }
  assert (Hassign : forall amount l,
             assign amount (active_units table (building_id self)) [] = Some l ->
             k ∈ PyDict.keys l -> k ∈ Unit.id <$> active_units table (building_id self)).
  { intros amount l Hl Hin. destruct (assign_keys _ _ _ _ Hl k Hin) as [Hin'|]; [|done].
    by apply elem_of_nil in Hin'. }
  destruct (allocation_method self).
  - destruct (Dec.gtb _ _); [eauto | by destruct (Hnil _ Hrun Hk)].
  - destruct (active_units table (building_id self)) as [|u0 us] eqn:Hu.
    + by destruct (Hnil _ Hrun Hk).
    + destruct (Dec.div _ _) as [q|]; [|done]. cbn [mbind option_bind] in Hrun. eauto.
  - destruct (0 <? _); [|by destruct (Hnil _ Hrun Hk)].
    destruct (Dec.div _ _) as [q|]; [|done]. cbn [mbind option_bind] in Hrun. eauto.
  - eauto.
  - eauto.
Qed.

End AssignFacts.

Module LookupFacts.

(** Reading the mapping back at the id of a unit gone through. *)
Lemma get_of_Forall2 (P : Unit.t -> Dec.Decimal -> Prop) (us : list Unit.t)
    (allocations : PyDict.t Dec.Decimal) :
  Forall2 (fun u (item : Z * Dec.Decimal) => item.1 = Unit.id u /\ P u item.2)
          us allocations ->
  NoDup (Unit.id <$> us) ->
  forall u, u ∈ us ->
  exists a, PyDict.get (Unit.id u) allocations = Some a /\ P u a.
Proof.
  induction 1 as [|u0 [k v] us allocations [Hk Hv] _ IH]; intros Hnd u Hu.
  - by apply elem_of_nil in Hu.
  - simpl in Hk, Hv. subst k. rewrite fmap_cons in Hnd.
    apply NoDup_cons in Hnd as [Hfresh Hnd]. simpl.
    apply elem_of_cons in Hu as [->|Hu].
    + rewrite decide_True by done. eauto.
    + rewrite decide_False.
      * by apply IH.
      * intros Heq. apply Hfresh. rewrite Heq. by apply list_elem_of_fmap_2.
Qed.

End LookupFacts.

(** X1.  Only the active units of the category's building are ever given
    an allocation: every key of the returned mapping is the id of a row of
    [units] that is active and belongs to that building. *)
Theorem allocations_only_for_active_units
    (table : list Unit.t) (cat : ExpenseCategory.t) (total_amount : Dec.Decimal)
    (allocations : PyDict.t Dec.Decimal) :
  ExpenseCategory.calculate_allocations table cat total_amount = Some allocations ->
  forall k, k ∈ PyDict.keys allocations ->
  exists u, u ∈ table /\ Unit.id u = k /\ Unit.is_active u = true
            /\ Unit.building_id u = ExpenseCategory.building_id cat.
Proof.
  intros Hrun k Hk.
  apply (AssignFacts.calculate_allocations_keys _ _ _ _ Hrun) in Hk.
  apply list_elem_of_fmap in Hk as (u & -> & Hu).
  apply list_elem_of_filter in Hu as [[Hb Ha] Hu]. eauto.
Qed.

Lemma allocations_only_for_active_units_witness :
  ExpenseCategory.calculate_allocations three_units (ExpenseCategory.mk 1 7 SHARES)
    (Dec.cents 100000)
  = Some [(1, Dec.mk false 200000 (-3)); (2, Dec.mk false 300000 (-3));
          (3, Dec.mk false 500000 (-3))] /\
  exists u, u ∈ three_units /\ Unit.id u = 2 /\ Unit.is_active u = true
            /\ Unit.building_id u = 7.
Proof.
  assert (Hrun : ExpenseCategory.calculate_allocations three_units
                   (ExpenseCategory.mk 1 7 SHARES) (Dec.cents 100000)
                 = Some [(1, Dec.mk false 200000 (-3)); (2, Dec.mk false 300000 (-3));
                         (3, Dec.mk false 500000 (-3))]) by (vm_compute; reflexivity).
  split; [exact Hrun|].
  apply (allocations_only_for_active_units _ _ _ _ Hrun 2).
  apply elem_of_cons. right. apply elem_of_cons. by left.
Defined.

(** X2.  With a non-negative total, non-negative shares and non-negative
    occupancy counts, no allocated amount is negative, whatever the
    method: the rows satisfy the [amount >= 0] check of
    [expense_allocations]. *)
Theorem allocations_are_not_negative
    (table : list Unit.t) (cat : ExpenseCategory.t) (total_amount : Dec.Decimal)
    (allocations : PyDict.t Dec.Decimal) :
  DecSpec.nonneg total_amount ->
  (forall u s, u ∈ table -> Unit.shares u = Some s -> DecSpec.nonneg s) ->
  (forall u n, u ∈ table -> Unit.occupancy_count u = Some n -> 0 <= n) ->
  ExpenseCategory.calculate_allocations table cat total_amount = Some allocations ->
  Forall DecSpec.nonneg (PyDict.values allocations).
Proof.
  intros Htotal Hshares Hocc. unfold ExpenseCategory.calculate_allocations.
  set (us := active_units table (ExpenseCategory.building_id cat)).
  assert (Hsub : forall u, u ∈ us -> u ∈ table).
  { intros u Hu. by apply list_elem_of_filter in Hu as [_ Hu]. }
  assert (Hzero : DecSpec.nonneg (Dec.of_int 0)) by (by apply DecSigns.of_int_nonneg).
  assert (Hnil : forall l : PyDict.t Dec.Decimal,
             Some [] = Some l -> Forall DecSpec.nonneg (PyDict.values l)).
  { intros l [= <-]. constructor. }
  assert (Hconst : forall l, ExpenseCategory.assign (fun _ => Some (Dec.of_int 0)) us [] = Some l ->
                             Forall DecSpec.nonneg (PyDict.values l)).
  { intros l. apply AssignFacts.assign_values; [|constructor].
    by intros u a _ [= <-]. }
  destruct (ExpenseCategory.allocation_method cat); [| | |apply Hconst|apply Hconst].
  - (* SHARES *)
    destruct (Dec.gtb _ _); [|by apply Hnil].
    assert (Hsum : DecSpec.nonneg (total_shares us)).
    { apply DecSigns.py_sum_nonneg, Forall_fmap, Forall_forall. intros u Hu.
      unfold shares_or_zero. simpl. destruct (Unit.shares u) as [s|] eqn:Hs; [|done].
      destruct (Dec.truthy s); [|done]. apply (Hshares u s); auto. }
    apply AssignFacts.assign_values; [|constructor].
    intros u a Hu. unfold ExpenseCategory.shares_amount.
    destruct (Unit.shares u) as [s|] eqn:Hs; [|by intros [= <-]].
    destruct (Dec.truthy s); [|by intros [= <-]].
    destruct (Dec.div s (total_shares us)) as [w|] eqn:Hw; [|done].
    intros [= <-]. apply DecSigns.mul_nonneg; [|done].
    apply (DecSigns.div_nonneg s (total_shares us)); [|done|done].
    apply (Hshares u s); auto.
  - (* PER_UNIT *)
    destruct us as [|u0 us'] eqn:Hus; [by apply Hnil|].
    destruct (Dec.div _ _) as [q|] eqn:Hq; [|done]. cbn [mbind option_bind].
    apply AssignFacts.assign_values; [|constructor].
    intros u a _ [= <-].
    apply (DecSigns.div_nonneg _ _ _ Htotal
             (DecSigns.of_int_nonneg (Z.of_nat (length (u0 :: us'))) (Nat2Z.is_nonneg _)) Hq).
  - (* PER_PERSON *)
    destruct (Z.ltb_spec 0 (total_occupants us)) as [Hpos|]; [|by apply Hnil].
    destruct (Dec.div _ _) as [q|] eqn:Hq; [|done]. cbn [mbind option_bind].
    apply AssignFacts.assign_values; [|constructor].
    intros u a Hu [= <-]. apply DecSigns.mul_nonneg.
    + apply (DecSigns.div_nonneg _ _ _ Htotal
               (DecSigns.of_int_nonneg (total_occupants us) (Z.lt_le_incl _ _ Hpos)) Hq).
    + apply DecSigns.of_int_nonneg. unfold occupancy_or_zero.
      destruct (Unit.occupancy_count u) as [n|] eqn:Hn; [|done].
      apply (Hocc u n); auto.
Qed.

Lemma allocations_are_not_negative_witness :
  DecSpec.nonneg (Dec.cents 100000) /\
  Forall DecSpec.nonneg
    [Dec.mk false 200000 (-3); Dec.mk false 300000 (-3); Dec.mk false 500000 (-3)].
Proof.
  assert (Htotal : DecSpec.nonneg (Dec.cents 100000)) by (split; [reflexivity | simpl; lia]).
  split; [exact Htotal|].
  apply (allocations_are_not_negative three_units (ExpenseCategory.mk 1 7 SHARES)
           (Dec.cents 100000)
           [(1, Dec.mk false 200000 (-3)); (2, Dec.mk false 300000 (-3));
            (3, Dec.mk false 500000 (-3))] Htotal).
  - intros u s Hu Hs. unfold three_units in Hu.
    repeat (apply elem_of_cons in Hu as [->|Hu]; [injection Hs as <-; split; [reflexivity | simpl; lia]|]).
    by apply elem_of_nil in Hu.
  - intros u n Hu Hn. unfold three_units in Hu.
    repeat (apply elem_of_cons in Hu as [->|Hu]; [injection Hn as <-; lia|]).
    by apply elem_of_nil in Hu.
  - vm_compute. reflexivity.
Defined.

Lemma per_unit_exact_reconciles_witness :
  ExpenseCategory.calculate_allocations three_units (ExpenseCategory.mk 1 7 PER_UNIT)
    (Dec.cents 9000)
  = Some [(1, Dec.cents 3000); (2, Dec.cents 3000); (3, Dec.cents 3000)] /\
  py_sum [Dec.cents 3000; Dec.cents 3000; Dec.cents 3000] = Dec.cents 9000.
Proof.
  assert (Hpk : NoDup (Unit.id <$> three_units)) by (apply (bool_decide_unpack _); by vm_compute).
  apply (AllocationFacts.per_unit_exact_reconciles three_units
           (ExpenseCategory.mk 1 7 PER_UNIT) 9000 Hpk eq_refl).
  - discriminate.
  - split; [lia | vm_compute; reflexivity].
  - exists 3000. reflexivity.
Defined.

(** X4.  The placeholder methods: for METERED and CUSTOM every eligible
    unit is listed with exactly [Decimal('0')], whatever the total; the
    amounts sum to 0, so the whole expense is left unallocated in value. *)
Theorem placeholder_methods_allocate_zero
    (table : list Unit.t) (cat : ExpenseCategory.t) (total_amount : Dec.Decimal) :
  NoDup (Unit.id <$> table) ->
  ExpenseCategory.allocation_method cat = METERED \/
  ExpenseCategory.allocation_method cat = CUSTOM ->
  let units := active_units table (ExpenseCategory.building_id cat) in
  ExpenseCategory.calculate_allocations table cat total_amount
    = Some ((fun u => (Unit.id u, Dec.of_int 0)) <$> units) /\
  py_sum (PyDict.values ((fun u => (Unit.id u, Dec.of_int 0)) <$> units)) = Dec.of_int 0.
Proof.
  intros Hpk Hm units.
  pose proof (AllocationFacts.active_units_NoDup table (ExpenseCategory.building_id cat) Hpk)
    as Hnd. fold units in Hnd.
  split.
  - unfold ExpenseCategory.calculate_allocations. fold units.
    destruct Hm as [-> | ->];
      by rewrite (AllocationFacts.assign_fresh _ (fun _ => Dec.of_int 0)).
  - unfold PyDict.values, py_sum. rewrite <- list_fmap_compose.
    generalize units. intros us. induction us as [|u us IH]; [done|].
    rewrite fmap_cons. simpl foldl.
    change (Dec.add (Dec.of_int 0) ((snd ∘ (fun u => (Unit.id u, Dec.of_int 0))) u))
      with (Dec.of_int 0). exact IH.
Qed.

Lemma placeholder_methods_allocate_zero_witness :
  ExpenseCategory.calculate_allocations three_units (ExpenseCategory.mk 4 7 METERED)
    (Dec.cents 10000)
  = Some [(1, Dec.of_int 0); (2, Dec.of_int 0); (3, Dec.of_int 0)].
Proof.
  assert (Hpk : NoDup (Unit.id <$> three_units)) by (apply (bool_decide_unpack _); by vm_compute).
  exact (proj1 (placeholder_methods_allocate_zero three_units
                  (ExpenseCategory.mk 4 7 METERED) (Dec.cents 10000) Hpk (or_introl eq_refl))).
Defined.

(** X5.  A unit that carries no weight is still listed, with a zero, as
    soon as the denominator is positive: under SHARES a unit without
    shares gets [Decimal('0')], under PER_PERSON a unit without occupants
    gets the per-person amount times 0. *)
Theorem weightless_units_get_zero
    (table : list Unit.t) (cat : ExpenseCategory.t) (total_amount : Dec.Decimal)
    (u : Unit.t) :
  NoDup (Unit.id <$> table) ->
  let units := active_units table (ExpenseCategory.building_id cat) in
  u ∈ units ->
  (ExpenseCategory.allocation_method cat = SHARES /\
   Dec.gtb (total_shares units) (Dec.of_int 0) = true /\ AllocationSpec.has_no_shares u) \/
  (ExpenseCategory.allocation_method cat = PER_PERSON /\
   0 < total_occupants units /\ occupancy_or_zero u = 0) ->
  exists allocations a,
    ExpenseCategory.calculate_allocations table cat total_amount = Some allocations /\
    PyDict.get (Unit.id u) allocations = Some a /\
    Dec.eqb a (Dec.of_int 0) = true.
Proof.
  intros Hpk units Hu Hcase.
  pose proof (AllocationFacts.active_units_NoDup table (ExpenseCategory.building_id cat) Hpk)
    as Hnd. fold units in Hnd.
  destruct (AllocationFacts.calculate_allocations_spec table cat total_amount Hpk)
    as (allocations & Hrun & Hshape). fold units in Hshape.
  exists allocations.
  destruct Hcase as [(Hm & Hpos & Hz) | (Hm & Hpos & Hz)];
    rewrite Hm in Hshape; unfold AllocationSpec.has_weights in Hshape.
  - rewrite Hpos in Hshape.
    destruct (LookupFacts.get_of_Forall2 _ _ _ Hshape Hnd u Hu) as (a & Hget & Ha).
    exists a. split; [done|]. split; [done|].
    unfold AllocationSpec.raw_amount in Ha. unfold AllocationSpec.has_no_shares in Hz.
    destruct (Unit.shares u) as [s|]; [|by subst a].
    rewrite Hz in Ha. by subst a.
  - rewrite (proj2 (Z.ltb_lt _ _) Hpos) in Hshape.
    destruct (LookupFacts.get_of_Forall2 _ _ _ Hshape Hnd u Hu) as (a & Hget & Ha).
    exists a. split; [done|]. split; [done|].
    destruct Ha as (q & _ & ->). rewrite Hz.
    apply DecSigns.eqb_zero, DecSigns.mul_zero_r. done.
Qed.

Lemma weightless_units_get_zero_witness :
  exists allocations a,
    ExpenseCategory.calculate_allocations mixed_units (ExpenseCategory.mk 5 5 PER_PERSON)
      (Dec.cents 10000) = Some allocations /\
    PyDict.get 22 allocations = Some a /\
    Dec.eqb a (Dec.of_int 0) = true.
Proof.
  assert (Hpk : NoDup (Unit.id <$> mixed_units)) by (apply (bool_decide_unpack _); by vm_compute).
  apply (weightless_units_get_zero mixed_units (ExpenseCategory.mk 5 5 PER_PERSON)
           (Dec.cents 10000) (Unit.mk 22 5 None (Some 0) true) Hpk).
  - apply elem_of_cons. right. apply elem_of_cons. by left.
  - right. split; [reflexivity|]. split; [vm_compute; reflexivity | reflexivity].
Defined.

(** X6.  Running [generate_allocations] again on what a run has produced
    is always skipped: whatever the first run did, the second returns
    [False] and leaves the expense and the session untouched, so no
    allocation row is ever written twice. *)
Theorem generate_allocations_again_is_skipped
    (utcnow : nat -> Timestamp) (db db' : Session) (e e' : Expense.t) (done : bool) :
  Expense.generate_allocations utcnow db e = Some (done, e', db') ->
  Expense.generate_allocations utcnow db' e' = Some (false, e', db').
Proof.
  unfold Expense.generate_allocations.
  destruct (Expense.is_allocated e) eqn:Ha.
  - intros [= <- <- <-]. by rewrite Ha.
  - destruct (ExpenseCategory.calculate_allocations _ _ _) as [allocations|]; [|done].
    cbn [mbind option_bind]. by intros [= <- <- <-].
Qed.

Lemma generate_allocations_again_is_skipped_witness :
  exists e' db',
    Expense.generate_allocations clock (mkSession three_units [] 0)
      (Expense.mk 2 7 (ExpenseCategory.mk 1 7 PER_UNIT) 0 (Dec.cents 10000) false false)
    = Some (true, e', db') /\
    length (expense_allocations db') = 3%nat /\
    Expense.generate_allocations clock db' e' = Some (false, e', db').
Proof.
  eexists. eexists.
  assert (Hrun : forall r, r = Expense.generate_allocations clock (mkSession three_units [] 0)
      (Expense.mk 2 7 (ExpenseCategory.mk 1 7 PER_UNIT) 0 (Dec.cents 10000) false false) ->
      Expense.generate_allocations clock (mkSession three_units [] 0)
      (Expense.mk 2 7 (ExpenseCategory.mk 1 7 PER_UNIT) 0 (Dec.cents 10000) false false) = r)
    by (intros r ->; reflexivity).
  split; [apply Hrun; vm_compute; reflexivity|].
  split; [reflexivity|].
  eapply generate_allocations_again_is_skipped. apply Hrun. vm_compute. reflexivity.
Defined.

(** * Further properties of invoices and payments *)

Module MoneyFacts.
Import Dec.

Lemma cmp_cents_zero a : cmp (cents a) (of_int 0) = (a ?= 0).
Proof. unfold cmp, scaled, signed. simpl. by rewrite Z.mul_1_r. Qed.

Lemma geb_cents a b : geb (cents a) (cents b) = (b <=? a).
Proof.
  unfold geb. rewrite DecFacts.cmp_cents.
  destruct (Z.compare_spec a b), (Z.leb_spec b a); done || lia.
Qed.

Lemma gtb_cents_zero a : gtb (cents a) (of_int 0) = (0 <? a).
Proof.
  unfold gtb. rewrite cmp_cents_zero.
  destruct (Z.compare_spec a 0), (Z.ltb_spec 0 a); done || lia.
Qed.

(** Subtracting amounts in cents is exact, and keeps the sign of the
    difference. *)
Lemma sub_cents a b :
  0 <= a < 10 ^ prec -> 0 <= b < 10 ^ prec ->
  sub (cents a) (cents b) = mk (a <? b) (Z.abs (a - b)) (-2).
Proof.
  intros Ha Hb. unfold sub, add, scaled, signed, neg. simpl.
  rewrite !Z.mul_1_r.
  replace (a + - b) with (a - b) by lia.
  replace (if a - b =? 0 then false else a - b <? 0) with (a <? b).
  - apply DecFacts.fix_small. simpl. lia.
  - destruct (Z.eqb_spec (a - b) 0), (Z.ltb_spec a b), (Z.ltb_spec (a - b) 0); done || lia.
Qed.

(** [status in [PAID, CANCELLED]], by cases. *)
Lemma closed_status (st : InvoiceStatusEnum) :
  bool_decide (st ∈ [PAID; CANCELLED])
  = match st with PAID | CANCELLED => true | _ => false end.
Proof. destruct st; reflexivity. Qed.

End MoneyFacts.

(** X7.  The recompute settles after at most two calls: a third
    [update_status] on the same day changes nothing, and on an invoice
    that is neither PAID nor CANCELLED the first call already gives the
    final status. *)
Theorem update_status_settles (today : Z) (inv : Invoice.t) :
  Invoice.update_status today (Invoice.update_status today (Invoice.update_status today inv))
  = Invoice.update_status today (Invoice.update_status today inv) /\
  (Invoice.status inv <> PAID -> Invoice.status inv <> CANCELLED ->
   Invoice.update_status today (Invoice.update_status today inv)
   = Invoice.update_status today inv).
Proof.
  destruct inv as [i u p due paid dd st det].
  unfold Invoice.update_status, Invoice.is_overdue, Invoice.set_status. cbn.
  destruct (Dec.geb paid due) eqn:Hge, (Dec.gtb paid (Dec.of_int 0)) eqn:Hgt,
    (dd <? today) eqn:Hdue, st;
    repeat (progress (cbn; rewrite ?Hge, ?Hgt, ?Hdue, ?MoneyFacts.closed_status));
    (split; [reflexivity | congruence]).
Qed.

(** X8.  The OVERDUE status and the [is_overdue] property: an invoice is
    given OVERDUE only with nothing paid and [is_overdue] true, while a
    partially paid invoice past its due date is given PARTIAL although
    [is_overdue] holds of it - a listing by status OVERDUE leaves it
    out. *)
Theorem overdue_status_versus_is_overdue (today : Z) (inv : Invoice.t) :
  let inv' := Invoice.update_status today inv in
  (Invoice.status inv' = OVERDUE ->
   Invoice.is_overdue today inv' = true /\
   Dec.gtb (Invoice.amount_paid inv) (Dec.of_int 0) = false) /\
  (Invoice.due_date inv < today ->
   Dec.geb (Invoice.amount_paid inv) (Invoice.amount_due inv) = false ->
   Dec.gtb (Invoice.amount_paid inv) (Dec.of_int 0) = true ->
   Invoice.status inv' = PARTIAL /\ Invoice.is_overdue today inv' = true).
Proof.
  destruct inv as [i u p due paid dd st det].
  unfold Invoice.update_status, Invoice.is_overdue, Invoice.set_status. cbn. split.
  - destruct (Dec.geb paid due), (Dec.gtb paid (Dec.of_int 0)), (dd <? today) eqn:Hdue, st;
      repeat (progress (cbn; rewrite ?Hdue, ?MoneyFacts.closed_status)); done.
  - intros Hdue -> ->. cbn. by rewrite (proj2 (Z.ltb_lt _ _) Hdue).
Qed.

Lemma overdue_status_versus_is_overdue_witness :
  let inv := Invoice.mk 4 1 0 (Dec.cents 10000) (Dec.cents 4000) 10 UNPAID None in
  Invoice.status (Invoice.update_status 11 inv) = PARTIAL /\
  Invoice.is_overdue 11 (Invoice.update_status 11 inv) = true.
Proof.
  apply (proj2 (overdue_status_versus_is_overdue 11
                  (Invoice.mk 4 1 0 (Dec.cents 10000) (Dec.cents 4000) 10 UNPAID None)));
    [simpl; lia | reflexivity | reflexivity].
Defined.

Lemma update_status_settles_witness :
  Invoice.update_status 11 (Invoice.update_status 11 open_invoice)
  = Invoice.update_status 11 open_invoice.
Proof.
  apply (proj2 (update_status_settles 11 open_invoice)); simpl; congruence.
Defined.

(** X9.  [balance_due] is the signed difference: on amounts in cents it
    is exactly [amount_due - amount_paid], and it is negative - not
    clamped to zero - when more was paid than was due. *)
Theorem balance_due_is_signed_difference (inv : Invoice.t) (d p : Z) :
  Invoice.amount_due inv = Dec.cents d -> Invoice.amount_paid inv = Dec.cents p ->
  0 <= d < 10 ^ Dec.prec -> 0 <= p < 10 ^ Dec.prec ->
  Invoice.balance_due inv = Dec.mk (d <? p) (Z.abs (d - p)) (-2) /\
  Dec.cmp (Invoice.balance_due inv) (Dec.of_int 0) = (d ?= p).
Proof.
  intros Hd Hp Hdr Hpr. unfold Invoice.balance_due. rewrite Hd, Hp.
  rewrite MoneyFacts.sub_cents by done. split; [done|].
  unfold Dec.cmp, Dec.scaled, Dec.signed. simpl. rewrite Z.mul_1_r.
  destruct (Z.ltb_spec d p), (Z.compare_spec d p); try lia.
  - apply Z.compare_lt_iff. lia.
  - apply Z.compare_eq_iff. lia.
  - apply Z.compare_gt_iff. lia.
Qed.

Lemma balance_due_is_signed_difference_witness :
  Invoice.balance_due
    (Invoice.mk 5 1 0 (Dec.cents 10000) (Dec.cents 12000) 10 PAID None)
  = Dec.mk true 2000 (-2).
Proof.
  refine (proj1 (balance_due_is_signed_difference
                   (Invoice.mk 5 1 0 (Dec.cents 10000) (Dec.cents 12000) 10 PAID None)
                   10000 12000 eq_refl eq_refl _ _));
    (split; [lia | vm_compute; reflexivity]).
Defined.

(** X10.  After a confirmed payment of a positive amount the invoice is
    PAID or PARTIAL, never UNPAID or OVERDUE, whatever its status and due
    date were: with [a] cents paid before, a payment of [m] cents and [d]
    cents due, the status is PAID when [a + m >= d] and PARTIAL
    otherwise. *)
Theorem payment_gives_paid_or_partial
    (today : Z) (invoices : gmap Z Invoice.t) (p : Payment.t) (i : Z) (inv : Invoice.t)
    (a m d : Z) :
  Payment.invoice_id p = Some i -> invoices !! i = Some inv ->
  Payment.is_confirmed p = true ->
  Invoice.amount_paid inv = Dec.cents a -> Payment.amount p = Dec.cents m ->
  Invoice.amount_due inv = Dec.cents d ->
  0 <= a -> 0 < m -> a + m < 10 ^ Dec.prec ->
  exists inv',
    (Payment.apply_to_invoice today invoices p).2 !! i = Some inv' /\
    Invoice.amount_paid inv' = Dec.cents (a + m) /\
    Invoice.status inv' = (if d <=? a + m then PAID else PARTIAL).
Proof.
  intros Hid Hinv Hconf Ha Hm Hd Ha0 Hm0 Hfit.
  unfold Payment.apply_to_invoice. rewrite Hid, Hinv, Hconf, Ha, Hm. simpl.
  rewrite lookup_insert_eq. eexists. split; [done|].
  rewrite DecFacts.add_cents by lia.
  destruct inv as [i0 u0 p0 due paid dd st det]. simpl in Hd. subst due.
  unfold Invoice.update_status, Invoice.set_amount_paid, Invoice.set_status. cbn.
  rewrite MoneyFacts.geb_cents, MoneyFacts.gtb_cents_zero.
  destruct (d <=? a + m); [done|].
  rewrite (proj2 (Z.ltb_lt 0 (a + m))) by lia. done.
Qed.

Lemma payment_gives_paid_or_partial_witness :
  exists inv',
    (Payment.apply_to_invoice 11 {[1 := open_invoice]} payment_40).2 !! 1 = Some inv' /\
    Invoice.amount_paid inv' = Dec.cents 4000 /\
    Invoice.status inv' = PARTIAL.
Proof.
  assert (Hstored : ({[1 := open_invoice]} : gmap Z Invoice.t) !! 1 = Some open_invoice)
    by reflexivity.
  apply (payment_gives_paid_or_partial 11 {[1 := open_invoice]} payment_40 1 open_invoice
           0 4000 10000 eq_refl Hstored eq_refl eq_refl eq_refl eq_refl);
    [lia | lia | vm_compute; reflexivity].
Defined.


(** X12.  Two confirmed payments of positive amounts on the same invoice
    can be applied in either order: the invoices end up the same. *)
Theorem payments_commute
    (today : Z) (invoices : gmap Z Invoice.t) (p1 p2 : Payment.t) (i : Z)
    (inv : Invoice.t) (a m1 m2 : Z) :
  Payment.invoice_id p1 = Some i -> Payment.invoice_id p2 = Some i ->
  invoices !! i = Some inv ->
  Payment.is_confirmed p1 = true -> Payment.is_confirmed p2 = true ->
  Invoice.amount_paid inv = Dec.cents a ->
  Payment.amount p1 = Dec.cents m1 -> Payment.amount p2 = Dec.cents m2 ->
  0 <= a -> 0 < m1 -> 0 < m2 -> a + m1 + m2 < 10 ^ Dec.prec ->
  (Payment.apply_to_invoice today (Payment.apply_to_invoice today invoices p1).2 p2).2
  = (Payment.apply_to_invoice today (Payment.apply_to_invoice today invoices p2).2 p1).2.
Proof.
  intros Hid1 Hid2 Hinv Hc1 Hc2 Ha Hm1 Hm2 Ha0 H1 H2 Hfit.
  unfold Payment.apply_to_invoice.
  rewrite Hid1, Hid2, Hinv, Hc1, Hc2. cbn [snd].
  rewrite !lookup_insert_eq, !insert_insert_eq. f_equal.
  destruct inv as [i0 u0 p0 due paid dd st det]. simpl in Ha. subst paid.
  rewrite Hm1, Hm2.
  unfold Invoice.update_status, Invoice.set_amount_paid, Invoice.set_status,
    Invoice.is_overdue. cbn.
  rewrite !(DecFacts.add_cents a) by lia.
  assert (Hpos : forall x, 0 < x -> Dec.gtb (Dec.cents x) (Dec.of_int 0) = true).
  { intros x Hx. rewrite MoneyFacts.gtb_cents_zero. by apply Z.ltb_lt. }
  destruct (Dec.geb (Dec.cents (a + m1)) due), (Dec.geb (Dec.cents (a + m2)) due);
    cbn; rewrite ?(Hpos (a + m1)), ?(Hpos (a + m2)) by lia; cbn;
    rewrite !DecFacts.add_cents by lia;
    replace (a + m2 + m1) with (a + m1 + m2) by lia;
    destruct (Dec.geb (Dec.cents (a + m1 + m2)) due); cbn;
    rewrite ?(Hpos (a + m1 + m2)) by lia; done.
Qed.

Lemma payments_commute_witness :
  (Payment.apply_to_invoice 11
     (Payment.apply_to_invoice 11 {[1 := open_invoice]} payment_40).2
     (Payment.mk 2 1 (Some 1) (Dec.cents 6000) true)).2
  = (Payment.apply_to_invoice 11
       (Payment.apply_to_invoice 11 {[1 := open_invoice]}
          (Payment.mk 2 1 (Some 1) (Dec.cents 6000) true)).2
       payment_40).2.
Proof.
  assert (Hstored : ({[1 := open_invoice]} : gmap Z Invoice.t) !! 1 = Some open_invoice)
    by reflexivity.
  apply (payments_commute 11 {[1 := open_invoice]} payment_40
           (Payment.mk 2 1 (Some 1) (Dec.cents 6000) true) 1 open_invoice 0 4000 6000
           eq_refl eq_refl Hstored eq_refl eq_refl eq_refl eq_refl eq_refl);
    [lia | lia | lia | vm_compute; reflexivity].
Defined.

Module LateFeeFacts.
Import Invoice InvoiceSpec.

Lemma late_fees_after now fee self self' :
  late_fees_appendable self ->
  add_late_fee now fee self = Some self' ->
  late_fees_field self' = Some (JList (late_fees self ++ [late_fee_entry fee now])) /\
  amount_due self' = Dec.add (amount_due self) fee /\
  amount_paid self' = amount_paid self /\ status self' = status self /\
  due_date self' = due_date self /\
  forall k, k <> "late_fees" ->
    default ∅ (details self') !! k = default ∅ (details self) !! k.
Proof.
  intros Hok. rewrite (InvoiceFacts.add_late_fee_appends now fee self Hok).
  intros [= <-]. unfold late_fees_field. simpl. rewrite lookup_insert_eq.
  repeat split; try done. intros k Hk. by rewrite lookup_insert_ne.
Qed.

Lemma add_late_fee_succeeds now fee self :
  late_fees_appendable self -> is_Some (add_late_fee now fee self).
Proof. intros Hok. rewrite (InvoiceFacts.add_late_fee_appends now fee self Hok). eauto. Qed.

End LateFeeFacts.

(** X13.  [add_late_fee] raises exactly when [details['late_fees']] is
    present and is not a list; in every other case it succeeds, also on an
    invoice whose [details] is NULL or empty. *)
Theorem add_late_fee_raises_iff (now : Timestamp) (fee : Dec.Decimal) (inv : Invoice.t) :
  Invoice.add_late_fee now fee inv = None <-> ~ InvoiceSpec.late_fees_appendable inv.
Proof.
  split.
  - intros Hnone Hok.
    rewrite (InvoiceFacts.add_late_fee_appends now fee inv Hok) in Hnone. done.
  - intros Hbad. unfold InvoiceSpec.late_fees_appendable, InvoiceSpec.late_fees_field in Hbad.
    unfold Invoice.add_late_fee.
    destruct inv as [i u p due paid dd st [d|]]; simpl in *; [|by destruct Hbad].
    destruct (decide (size d = 0%nat)) as [Hz|Hnz].
    { apply map_size_empty_iff in Hz as ->. rewrite lookup_empty in Hbad. by destruct Hbad. }
    destruct (d !! "late_fees") as [j|] eqn:Hj; [|by destruct Hbad].
    rewrite ?Hj. destruct j; first [done | by destruct Hbad].
Qed.



(** X15.  A late fee reopens an invoice once the status is recomputed:
    with [a > 0] cents paid, [d] cents due and a fee of [f] cents, the
    recompute after [add_late_fee] gives PAID when [a >= d + f] and PARTIAL
    otherwise - so a fee on an invoice paid in full turns it PARTIAL. *)
Theorem late_fee_then_recompute
    (today : Z) (now : Timestamp) (inv : Invoice.t) (a d f : Z) :
  InvoiceSpec.late_fees_appendable inv ->
  Invoice.amount_paid inv = Dec.cents a -> Invoice.amount_due inv = Dec.cents d ->
  0 < a -> 0 <= d -> 0 <= f -> d + f < 10 ^ Dec.prec ->
  exists inv',
    Invoice.add_late_fee now (Dec.cents f) inv = Some inv' /\
    Invoice.amount_due inv' = Dec.cents (d + f) /\
    Invoice.status (Invoice.update_status today inv')
      = (if d + f <=? a then PAID else PARTIAL).
Proof.
  intros Hok Ha Hd Ha0 Hd0 Hf0 Hfit.
  destruct (LateFeeFacts.add_late_fee_succeeds now (Dec.cents f) inv Hok) as [inv' Hrun].
  destruct (LateFeeFacts.late_fees_after _ _ _ _ Hok Hrun) as (_ & Hdue & Hpaid & _).
  rewrite Hd, DecFacts.add_cents in Hdue by lia. rewrite Ha in Hpaid.
  exists inv'. split; [done|]. split; [done|].
  unfold Invoice.update_status. rewrite Hdue, Hpaid.
  rewrite MoneyFacts.geb_cents, MoneyFacts.gtb_cents_zero.
  destruct (d + f <=? a); [done|].
  by rewrite (proj2 (Z.ltb_lt 0 a)) by lia.
Qed.

Lemma late_fee_then_recompute_witness :
  exists inv',
    Invoice.add_late_fee "2024-01-11T00:00:00" (Dec.cents 1000) paid_invoice = Some inv' /\
    Invoice.amount_due inv' = Dec.cents 11000 /\
    Invoice.status (Invoice.update_status 11 inv') = PARTIAL.
Proof.
  apply (late_fee_then_recompute 11 "2024-01-11T00:00:00" paid_invoice 10000 10000 1000 I
           eq_refl eq_refl); [lia | lia | lia | vm_compute; reflexivity].
Defined.

(** X16.  Looking an allocation method up by its value undoes [.value]:
    [AllocationMethodEnum(m.value)] is [m], so the method kept in a
    formula snapshot can be read back; any string that is not one of the
    five values raises. *)
Theorem AllocationMethodEnum_value_round_trip :
  (forall m, AllocationMethodEnum_of_value (AllocationMethodEnum_value m) = Some m) /\
  (forall s m, AllocationMethodEnum_of_value s = Some m -> AllocationMethodEnum_value m = s) /\
  (forall s, (forall m, AllocationMethodEnum_value m <> s) ->
             AllocationMethodEnum_of_value s = None).
Proof.
  assert (Hback : forall s m, AllocationMethodEnum_of_value s = Some m ->
                              AllocationMethodEnum_value m = s).
  { intros s m. unfold AllocationMethodEnum_of_value.
    repeat case_decide; intros [= <-]; by subst. }
  split; [by intros []|]. split; [exact Hback|].
  intros s Hs. destruct (AllocationMethodEnum_of_value s) as [m|] eqn:Hm; [|done].
  destruct (Hs m). by apply Hback.
Qed.

(** * Properties of buildings and units *)

Module BuildingFacts.
Import Building BuildingSpec.

Lemma add_entrance_list name b :
  entrance_list (add_entrance name b)
  = if decide (name ∈ entrance_list b) then entrance_list b else entrance_list b ++ [name].
Proof.
  unfold add_entrance, entrance_list.
  destruct (entrances b) as [[|e es]|]; cbn [default];
    repeat case_decide; try done;
    match goal with H : _ ∈ [] |- _ => by apply elem_of_nil in H end.
Qed.

Lemma add_entrance_entrances name b :
  entrances (add_entrance name b) = Some (entrance_list (add_entrance name b)).
Proof. unfold add_entrance, entrance_list. by case_decide. Qed.

Lemma add_entrance_units name b : units (add_entrance name b) = units b.
Proof. unfold add_entrance. by destruct (decide _). Qed.

Lemma filter_ne_app_fresh (name : string) (l : list string) :
  name ∉ l -> filter (fun e => e <> name) (l ++ [name]) = l.
Proof.
  intros Hfresh. rewrite filter_app.
  rewrite (filter_cons_False (fun e => e <> name) name []) by (intros H; by apply H).
  rewrite filter_nil, app_nil_r.
  induction l as [|x l IH]; [done|].
  apply not_elem_of_cons in Hfresh as [Hne Hfresh].
  rewrite filter_cons_True by done. by rewrite IH.
Qed.

End BuildingFacts.

(** X17.  [add_entrance] adds an entrance once: afterwards the name is
    listed, the entrances already listed are kept in their order, a list
    without duplicates stays without duplicates, and adding the same name
    again changes nothing. *)
Theorem add_entrance_once (name : string) (b : Building.t) :
  let b' := Building.add_entrance name b in
  name ∈ BuildingSpec.entrance_list b' /\
  BuildingSpec.entrance_list b `prefix_of` BuildingSpec.entrance_list b' /\
  (NoDup (BuildingSpec.entrance_list b) -> NoDup (BuildingSpec.entrance_list b')) /\
  Building.add_entrance name b' = b' /\
  Building.units b' = Building.units b.
Proof.
  cbn zeta. rewrite BuildingFacts.add_entrance_units.
  pose proof (BuildingFacts.add_entrance_list name b) as Hl.
  split; [|split; [|split; [|split; [|done]]]].
  - rewrite Hl. destruct (decide _); [done|]. apply elem_of_app. right. by left.
  - rewrite Hl. destruct (decide _); [done|]. by apply prefix_app_r.
  - rewrite Hl. destruct (decide _) as [|Hfresh]; [done|]. intros Hnd.
    apply NoDup_app. split; [done|]. split; [|apply NoDup_singleton].
    intros x Hx Hin. apply list_elem_of_singleton in Hin. by subst.
  - unfold Building.add_entrance at 1.
    assert (Hin : name ∈ BuildingSpec.entrance_list (Building.add_entrance name b)).
    { rewrite Hl. destruct (decide _); [done|]. apply elem_of_app. right. by left. }
    unfold BuildingSpec.entrance_list in Hin.
    destruct (Building.entrances (Building.add_entrance name b)) as [[|e es]|] eqn:He;
      simpl in Hin; try by apply elem_of_nil in Hin.
    rewrite decide_True by done.
    destruct (Building.add_entrance name b) as [i en ba us]. simpl in He. by subst.
Qed.



(** X19.  [remove_entrance] raises on a building whose [entrances] column
    is NULL, unless a unit names the entrance (then it refuses first). *)
Theorem remove_entrance_raises_iff (name : string) (b : Building.t) :
  Building.remove_entrance name b = None <->
  Building.entrances b = None /\ Building.get_units_by_entrance b name = [].
Proof.
  unfold Building.remove_entrance.
  destruct (Building.get_units_by_entrance b name) as [|u0 us].
  - destruct (Building.entrances b) as [es|]; [|done].
    destruct (decide (name ∈ es)); (split; [done | by intros [? _]]).
  - split; [done|]. by intros [_ ?].
Qed.

(** X20.  Adding an entrance that is not listed and that no unit names,
    then removing it, gives back the entrances there were. *)
Theorem add_then_remove_entrance (name : string) (b : Building.t) :
  (name ∉ BuildingSpec.entrance_list b) ->
  Building.get_units_by_entrance b name = [] ->
  Building.remove_entrance name (Building.add_entrance name b)
  = Some (true, Building.set_entrances (Some (BuildingSpec.entrance_list b)) b).
Proof.
  intros Hfresh Hunits. unfold Building.remove_entrance.
  unfold Building.get_units_by_entrance in *. rewrite BuildingFacts.add_entrance_units, Hunits.
  assert (He : Building.entrances (Building.add_entrance name b)
               = Some (BuildingSpec.entrance_list b ++ [name])).
  { rewrite BuildingFacts.add_entrance_entrances, BuildingFacts.add_entrance_list.
    by rewrite decide_False. }
  rewrite He. rewrite decide_True by (apply elem_of_app; right; by left).
  rewrite BuildingFacts.filter_ne_app_fresh by done.
  do 2 f_equal. unfold Building.add_entrance, Building.set_entrances.
  by case_decide.
Qed.

Lemma add_then_remove_entrance_witness :
  Building.remove_entrance "C" (Building.add_entrance "C" building_7)
  = Some (true, building_7).
Proof.
  refine (add_then_remove_entrance "C" building_7 _ eq_refl).
  apply (bool_decide_unpack _). by vm_compute.
Defined.

Module BankFacts.
Import Building BuildingSpec.

Lemma add_bank_account_list iban bank holder b :
  account_list (add_bank_account iban bank holder b)
  = account_list b
    ++ [BankAccount.mk iban bank holder (bool_decide (length (account_list b) = 0%nat))].
Proof.
  unfold add_bank_account, account_list. by destruct (bank_accounts b) as [[|a l]|].
Qed.

Lemma add_bank_accounts_list args : forall b,
  account_list (add_bank_accounts args b)
  = account_list b
    ++ imap (fun k arg =>
               BankAccount.mk arg.1.1 arg.1.2 arg.2
                 (bool_decide ((length (account_list b) + k)%nat = 0%nat))) args.
Proof.
  unfold add_bank_accounts.
  induction args as [|arg args IH]; intros b; simpl; [by rewrite app_nil_r|].
  rewrite IH, add_bank_account_list, <- app_assoc. f_equal.
  cbn [app]. f_equal.
  - by rewrite Nat.add_0_r.
  - apply imap_ext. intros k x _. cbn. rewrite length_app. cbn. f_equal.
    apply bool_decide_ext. lia.
Qed.

End BankFacts.

(** X21.  On a building without bank accounts (NULL or empty), a series of
    [add_bank_account] calls leaves the accounts in the order they were
    added, the first one primary and none of the others: there is exactly
    one primary account as soon as there is an account. *)
Theorem first_bank_account_is_primary
    (args : list (string * string * string)) (b : Building.t) :
  BuildingSpec.account_list b = [] ->
  BuildingSpec.account_list (BuildingSpec.add_bank_accounts args b)
  = imap (fun k arg => BankAccount.mk arg.1.1 arg.1.2 arg.2 (bool_decide (k = 0%nat))) args /\
  BankAccount.is_primary <$> BuildingSpec.account_list (BuildingSpec.add_bank_accounts args b)
  = match args with
    | [] => []
    | _ :: rest => true :: replicate (length rest) false
    end.
Proof.
  intros Hempty.
  assert (Hl : BuildingSpec.account_list (BuildingSpec.add_bank_accounts args b)
               = imap (fun k arg => BankAccount.mk arg.1.1 arg.1.2 arg.2
                                      (bool_decide (k = 0%nat))) args).
  { rewrite BankFacts.add_bank_accounts_list, Hempty. done. }
  split; [done|]. rewrite Hl.
  destruct args as [|arg rest]; [done|].
  rewrite imap_cons, fmap_cons. f_equal.
  rewrite fmap_imap.
  clear. induction rest as [|x rest IH]; [done|].
  rewrite imap_cons. simpl. f_equal. rewrite <- IH. apply imap_ext. done.
Qed.

Lemma first_bank_account_is_primary_witness :
  BankAccount.is_primary <$>
    BuildingSpec.account_list
      (BuildingSpec.add_bank_accounts
         [("BG80BNBG96611020345678", "BNB", "Building 7");
          ("BG18RZBB91550123456789", "RBB", "Building 7")] building_7)
  = [true; false].
Proof.
  exact (proj2 (first_bank_account_is_primary
                  [("BG80BNBG96611020345678", "BNB", "Building 7");
                   ("BG18RZBB91550123456789", "RBB", "Building 7")] building_7 eq_refl)).
Defined.

(** X22.  [get_primary_contact] returns a member exactly when the unit has
    an active membership, and the member returned always holds an active
    membership: one flagged primary if there is any; failing that an owner
    if there is any; failing that a tenant if there is any. *)
Theorem primary_contact_is_an_active_member (u : UnitRow.t) :
  let active := UnitRow.get_active_memberships u in
  (UnitRow.get_primary_contact u = None <-> active = []) /\
  forall c, UnitRow.get_primary_contact u = Some c ->
    exists m, m ∈ UnitRow.memberships u /\ Membership.is_active m = true /\
              Membership.user m = c /\
              (Membership.is_primary m = true \/
               (forall m', m' ∈ active -> Membership.is_primary m' <> true) /\
               (Membership.role m = OWNER \/
                (forall m', m' ∈ active -> Membership.role m' <> OWNER) /\
                (Membership.role m = TENANT \/
                 forall m', m' ∈ active -> Membership.role m' <> TENANT))).
Proof.
  cbn zeta. unfold UnitRow.get_primary_contact, UnitRow.get_owners, UnitRow.get_tenants,
    UnitRow.get_all_occupants.
  set (active := UnitRow.get_active_memberships u).
  assert (Hactive : forall m, m ∈ active ->
                      m ∈ UnitRow.memberships u /\ Membership.is_active m = true).
  { intros m Hm. apply list_elem_of_filter in Hm. tauto. }
  destruct (filter (fun m => Membership.is_primary m = true) active) as [|mp lp] eqn:Hp.
  2: { split; [split; [done|]|].
       - intros Hnil. rewrite Hnil in Hp. done.
       - intros c [= <-].
         assert (Hin : mp ∈ filter (fun m => Membership.is_primary m = true) active)
           by (rewrite Hp; left).
         apply list_elem_of_filter in Hin as [Hprim Hin].
         destruct (Hactive _ Hin). exists mp. eauto. }
  assert (Hnp : forall m', m' ∈ active -> Membership.is_primary m' <> true).
  { intros m' Hm' HP. eapply filter_nil_not_elem_of; [exact Hp | exact HP | exact Hm']. }
  destruct (filter (fun m => Membership.role m = OWNER) active) as [|mo lo] eqn:Ho; simpl.
  2: { split; [split; [done|]|].
       - intros Hnil. rewrite Hnil in Ho. done.
       - intros c [= <-].
         assert (Hin : mo ∈ filter (fun m => Membership.role m = OWNER) active)
           by (rewrite Ho; left).
         apply list_elem_of_filter in Hin as [Hrole Hin].
         destruct (Hactive _ Hin). exists mo. split; [done|]. split; [done|]. split; [done|].
         right. split; [done|]. by left. }
  assert (Hno : forall m', m' ∈ active -> Membership.role m' <> OWNER).
  { intros m' Hm' HP. eapply filter_nil_not_elem_of; [exact Ho | exact HP | exact Hm']. }
  destruct (filter (fun m => Membership.role m = TENANT) active) as [|mt lt] eqn:Ht; simpl.
  2: { split; [split; [done|]|].
       - intros Hnil. rewrite Hnil in Ht. done.
       - intros c [= <-].
         assert (Hin : mt ∈ filter (fun m => Membership.role m = TENANT) active)
           by (rewrite Ht; left).
         apply list_elem_of_filter in Hin as [Hrole Hin].
         destruct (Hactive _ Hin). exists mt. split; [done|]. split; [done|]. split; [done|].
         right. split; [done|]. right. split; [done|]. by left. }
  assert (Hnt : forall m', m' ∈ active -> Membership.role m' <> TENANT).
  { intros m' Hm' HP. eapply filter_nil_not_elem_of; [exact Ht | exact HP | exact Hm']. }
  destruct active as [|m0 l0] eqn:Hact; simpl.
  - split; [done|]. done.
  - split; [split; done|].
    intros c [= <-]. destruct (Hactive m0 ltac:(left)). exists m0.
    split; [done|]. split; [done|]. split; [done|].
    right. split; [done|]. right. split; [done|]. by right.
Qed.

Lemma primary_contact_is_an_active_member_witness :
  UnitRow.get_primary_contact
    (UnitRow.mk (Unit.mk 1 7 None None true) (Some "A") (Some 0) "1" None
       [Membership.mk 1 100 TENANT false true; Membership.mk 2 101 OWNER true false])
  = Some 101 /\
  exists m, Membership.is_active m = true /\ Membership.user m = 101.
Proof.
  split; [reflexivity|].
  destruct (proj2 (primary_contact_is_an_active_member
                     (UnitRow.mk (Unit.mk 1 7 None None true) (Some "A") (Some 0) "1" None
                        [Membership.mk 1 100 TENANT false true;
                         Membership.mk 2 101 OWNER true false])) 101 eq_refl)
    as (m & _ & Hact & Huser & _).
  exists m. split; [exact Hact | exact Huser].
Defined.

Module ShareFacts.

Lemma filter_all {A} (P : A -> Prop) `{!forall x, Decision (P x)} (l : list A) :
  (forall x, x ∈ l -> P x) -> filter P l = l.
Proof.
  induction l as [|x l IH]; intros Hall; [done|].
  rewrite filter_cons_True by (apply Hall; left). f_equal. apply IH.
  intros y Hy. apply Hall. by right.
Qed.

Lemma foldl_Zadd (l : list Z) : forall a, foldl Z.add a l = a + foldl Z.add 0 l.
Proof.
  induction l as [|x l IH]; intros a; simpl; [lia|].
  rewrite (IH (a + x)), (IH (0 + x)). lia.
Qed.

End ShareFacts.

(** X23.  In a building whose units are all active, the share percentage
    of a unit is what a SHARES allocation of [Decimal(100)] gives that
    unit: both divide the unit's shares by the same total and multiply by
    100. *)
Theorem share_percentage_is_allocation_of_100
    (b : Building.t) (cat : ExpenseCategory.t) (u : UnitRow.t) :
  let table := UnitRow.unit <$> Building.units b in
  NoDup (Unit.id <$> table) ->
  (forall v, v ∈ table ->
     Unit.building_id v = ExpenseCategory.building_id cat /\ Unit.is_active v = true) ->
  ExpenseCategory.allocation_method cat = SHARES ->
  Dec.gtb (Building.get_total_shares b) (Dec.of_int 0) = true ->
  u ∈ Building.units b ->
  exists allocations,
    ExpenseCategory.calculate_allocations table cat (Dec.of_int 100) = Some allocations /\
    PyDict.get (Unit.id (UnitRow.unit u)) allocations
    = calculate_share_percentage (Some b) u.
Proof.
  intros table Hpk Hall Hm Hpos Hu.
  assert (Hunits : active_units table (ExpenseCategory.building_id cat) = table).
  { unfold active_units. by apply ShareFacts.filter_all. }
  destruct (AllocationFacts.calculate_allocations_spec table cat (Dec.of_int 100) Hpk)
    as (allocations & Hrun & Hshape).
  rewrite Hunits, Hm in Hshape. unfold AllocationSpec.has_weights in Hshape.
  unfold Building.get_total_shares in Hpos. fold table in Hpos. rewrite Hpos in Hshape.
  exists allocations. split; [done|].
  assert (Hin : UnitRow.unit u ∈ table) by (by apply list_elem_of_fmap_2).
  destruct (LookupFacts.get_of_Forall2 _ _ _ Hshape Hpk _ Hin) as (a & -> & Ha).
  unfold AllocationSpec.raw_amount in Ha.
  unfold calculate_share_percentage, Building.get_total_shares. fold table.
  destruct (Unit.shares (UnitRow.unit u)) as [s|]; [|by subst].
  destruct (Dec.truthy s); [|by subst].
  rewrite Hpos. destruct Ha as (w & -> & ->). done.
Qed.

Lemma share_percentage_is_allocation_of_100_witness :
  calculate_share_percentage (Some building_7)
    (UnitRow.mk (Unit.mk 2 7 (Some (Dec.mk false 30000 (-6))) (Some 1) true)
       (Some "A") (Some 1) "2" None [Membership.mk 3 102 TENANT true false])
  = Some (Dec.mk false 300 (-1)) /\
  exists allocations,
    ExpenseCategory.calculate_allocations (UnitRow.unit <$> Building.units building_7)
      (ExpenseCategory.mk 1 7 SHARES) (Dec.of_int 100) = Some allocations /\
    PyDict.get 2 allocations = Some (Dec.mk false 300 (-1)).
Proof.
  split; [vm_compute; reflexivity|].
  assert (Hpk : NoDup (Unit.id <$> (UnitRow.unit <$> Building.units building_7)))
    by (apply (bool_decide_unpack _); by vm_compute).
  destruct (share_percentage_is_allocation_of_100 building_7 (ExpenseCategory.mk 1 7 SHARES)
              (UnitRow.mk (Unit.mk 2 7 (Some (Dec.mk false 30000 (-6))) (Some 1) true)
                 (Some "A") (Some 1) "2" None [Membership.mk 3 102 TENANT true false]) Hpk)
    as (allocations & Hrun & Hget).
  - intros v Hv. unfold building_7 in Hv. simpl in Hv.
    repeat (apply elem_of_cons in Hv as [->|Hv]; [split; reflexivity|]).
    by apply elem_of_nil in Hv.
  - reflexivity.
  - vm_compute. reflexivity.
  - apply elem_of_cons. right. apply elem_of_cons. by left.
  - exists allocations. split; [exact Hrun|].
    exact (eq_trans Hget ltac:(vm_compute; reflexivity)).
Defined.

(** X24.  [calculate_share_percentage] never raises, and it is
    [Decimal('0')] for a unit without shares, for a unit without building,
    and in a building whose shares do not sum to a positive total. *)
Theorem share_percentage_never_raises (building : option Building.t) (u : UnitRow.t) :
  exists r,
    calculate_share_percentage building u = Some r /\
    (AllocationSpec.has_no_shares (UnitRow.unit u) \/ building = None \/
     (exists b, building = Some b /\
                Dec.gtb (Building.get_total_shares b) (Dec.of_int 0) = false) ->
     r = Dec.of_int 0).
Proof.
  unfold calculate_share_percentage, AllocationSpec.has_no_shares.
  destruct (Unit.shares (UnitRow.unit u)) as [s|]; [|by eexists].
  destruct building as [b|]; [|by eexists].
  destruct (Dec.truthy s) eqn:Ht; [|by eexists].
  destruct (Dec.gtb (Building.get_total_shares b) (Dec.of_int 0)) eqn:Hpos; [|by eexists].
  destruct (DecFacts.div_is_Some s (Building.get_total_shares b)
              (DecFacts.gtb_zero_coeff _ Hpos)) as [w ->].
  eexists. split; [done|]. intros [Hz|[Hn|(b' & [= <-] & Hz)]]; congruence.
Qed.

(** X25.  After [update_occupancy_count] on every unit, the denominator of
    PER_PERSON is the number of active memberships of those units:
    inactive memberships are not counted, and a member of two units counts
    twice. *)
Theorem occupants_are_active_memberships (rows : list UnitRow.t) :
  total_occupants (UnitRow.unit <$> (UnitRow.update_occupancy_count <$> rows))
  = Z.of_nat (length (rows ≫= UnitRow.get_active_memberships)) /\
  Forall2 (fun r r' => Unit.id (UnitRow.unit r') = Unit.id (UnitRow.unit r) /\
                       Unit.shares (UnitRow.unit r') = Unit.shares (UnitRow.unit r) /\
                       Unit.is_active (UnitRow.unit r') = Unit.is_active (UnitRow.unit r) /\
                       UnitRow.memberships r' = UnitRow.memberships r)
          rows (UnitRow.update_occupancy_count <$> rows).
Proof.
  split.
  - unfold total_occupants. induction rows as [|r rows IH]; [done|].
    rewrite !fmap_cons, bind_cons, length_app, Nat2Z.inj_add. simpl foldl.
    rewrite ShareFacts.foldl_Zadd, IH. unfold occupancy_or_zero. simpl. lia.
  - induction rows as [|r rows IH]; constructor; done.
Qed.

(** X26.  [floors_count] counts the distinct floors of the units that have
    one: it never exceeds the number of units, and it is 0 exactly when no
    unit has a floor - a unit on floor 0 counts. *)
Theorem floors_count_bounds (b : Building.t) :
  0 <= Building.floors_count b <= Building.get_total_units b /\
  (Building.floors_count b = 0 <->
   forall u, u ∈ Building.units b -> UnitRow.floor u = None).
Proof.
  unfold Building.floors_count, Building.get_total_units.
  assert (Hsize : forall l : list Z, (size (list_to_set l : gset Z) <= length l)%nat).
  { induction l as [|x l IH]; [by rewrite list_to_set_nil, size_empty|].
    rewrite list_to_set_cons, size_union_alt, size_singleton. simpl.
    assert (size (list_to_set l ∖ {[x]} : gset Z) <= size (list_to_set l : gset Z))%nat
      by (apply subseteq_size, subseteq_difference_l; done).
    lia. }
  assert (Hlen : forall l : list UnitRow.t, (length (omap UnitRow.floor l) <= length l)%nat).
  { induction l as [|u l IH]; [done|]. unfold omap in *. simpl.
    destruct (UnitRow.floor u); simpl; lia. }
  split.
  - pose proof (Hsize (omap UnitRow.floor (Building.units b))).
    pose proof (Hlen (Building.units b)). lia.
  - split.
    + intros Hz u Hu. destruct (UnitRow.floor u) as [f|] eqn:Hf; [|done].
      assert (Hin : f ∈ (list_to_set (omap UnitRow.floor (Building.units b)) : gset Z)).
      { apply elem_of_list_to_set, list_elem_of_omap. eauto. }
      assert (Hempty : size (list_to_set (omap UnitRow.floor (Building.units b)) : gset Z)
                       = 0%nat) by lia.
      apply size_empty_inv in Hempty. apply Hempty in Hin. by apply elem_of_empty in Hin.
    + intros Hnone.
      assert (Hnil : omap UnitRow.floor (Building.units b) = []).
      { induction (Building.units b) as [|u l IH]; [done|]. simpl.
        rewrite (Hnone u) by left. apply IH. intros v Hv. apply Hnone. by right. }
      by rewrite Hnil.
Qed.

(** * Properties of the audit log *)

Module AuditFacts.

Lemma audit_diff_sound old items k o n :
  (k, (o, n)) ∈ audit_diff old items ->
  (k, n) ∈ items /\ o = default VNone (old !! k) /\ py_ne o n = true.
Proof.
  induction items as [|[k0 n0] items IH]; simpl; intros Hin.
  - by apply elem_of_nil in Hin.
  - destruct (py_ne (default VNone (old !! k0)) n0) eqn:Hne.
    + apply elem_of_cons in Hin as [[= -> -> ->]|Hin].
      * split; [left|done].
      * destruct (IH Hin) as (? & ? & ?). split; [by right|done].
    + destruct (IH Hin) as (? & ? & ?). split; [by right|done].
Qed.

Lemma audit_diff_complete old items k n :
  (k, n) ∈ items -> py_ne (default VNone (old !! k)) n = true ->
  (k, (default VNone (old !! k), n)) ∈ audit_diff old items.
Proof.
  induction items as [|[k0 n0] items IH]; simpl; intros Hin Hne.
  - by apply elem_of_nil in Hin.
  - apply elem_of_cons in Hin as [[= <- <-]|Hin].
    + rewrite Hne. left.
    + destruct (py_ne (default VNone (old !! k0)) n0); [right|]; by apply IH.
Qed.

End AuditFacts.

(** X27.  The diff of an audit log lists exactly the keys of [new_values]
    whose value differs from [old_values.get(key)], each with its old and
    new value; a key present only in [old_values] is never reported.  When
    either dict is missing or empty - a creation or a deletion - the diff
    is empty whatever the other holds.  The log is appended to the
    table. *)
Theorem audit_log_diff
    (entity : string) (entity_id : Z) (action : string) (actor_user_id : Z)
    (old_values : option (gmap string PyValue))
    (new_values : option (list (string * PyValue))) (audit_logs : list AuditLog.t) :
  let r := create_audit_log entity entity_id action actor_user_id old_values new_values
             audit_logs in
  r.2 = audit_logs ++ [r.1] /\
  (forall k o n, (k, (o, n)) ∈ AuditLog.diff r.1 ->
     (k, n) ∈ default [] new_values /\
     o = default VNone (default ∅ old_values !! k) /\ py_ne o n = true) /\
  (forall old items k n,
     old_values = Some old -> old <> ∅ -> new_values = Some items ->
     (k, n) ∈ items -> py_ne (default VNone (old !! k)) n = true ->
     (k, (default VNone (old !! k), n)) ∈ AuditLog.diff r.1) /\
  (old_values = None \/ old_values = Some ∅ \/ new_values = None \/ new_values = Some [] ->
   AuditLog.diff r.1 = []).
Proof.
  unfold create_audit_log. cbn zeta. cbn [fst snd AuditLog.diff].
  split; [done|]. split; [|split].
  - intros k o n Hin.
    destruct old_values as [old|], new_values as [[|i0 items]|];
      try (by apply elem_of_nil in Hin).
    destruct (decide (size old = 0%nat)); [by apply elem_of_nil in Hin|].
    by apply AuditFacts.audit_diff_sound.
  - intros old items k n -> Hne -> Hin Hdiff.
    destruct items as [|i0 items]; [by apply elem_of_nil in Hin|].
    rewrite decide_False by (by intros ?%map_size_empty_iff).
    by apply AuditFacts.audit_diff_complete.
  - intros [-> | [-> | [-> | ->]]]; try done.
    + by destruct new_values as [[|]|].
    + by destruct old_values.
    + by destruct old_values.
Qed.

Lemma audit_log_diff_witness :
  let old : gmap string PyValue := {["status" := VStr "unpaid"]} in
  AuditLog.diff
    (create_audit_log "Invoice" 1 "update" 7 (Some old)
       (Some [("status", VStr "paid"); ("notes", VNone)]) []).1
  = [("status", (VStr "unpaid", VStr "paid"))] /\
  ("status", (VStr "unpaid", VStr "paid")) ∈
    AuditLog.diff
      (create_audit_log "Invoice" 1 "update" 7 (Some old)
         (Some [("status", VStr "paid"); ("notes", VNone)]) []).1.
Proof.
  intros old. split; [vm_compute; reflexivity|].
  refine (proj1 (proj2 (proj2 (audit_log_diff "Invoice" 1 "update" 7 (Some old)
            (Some [("status", VStr "paid"); ("notes", VNone)]) [])))
            old _ "status" (VStr "paid") eq_refl _ eq_refl _ _).
  - intros Hempty. assert (H : old !! "status" = Some (VStr "unpaid")) by reflexivity.
    rewrite Hempty in H. by rewrite lookup_empty in H.
  - left.
  - reflexivity.
Defined.

(** * Instances of the remaining properties *)


Lemma add_late_fee_raises_iff_witness :
  let inv := Invoice.mk 6 1 0 (Dec.cents 10000) (Dec.cents 0) 10 UNPAID
               (Some {["late_fees" := JStr "none"]}) in
  ~ InvoiceSpec.late_fees_appendable inv /\
  Invoice.add_late_fee "2024-01-11T00:00:00" (Dec.cents 1000) inv = None.
Proof.
  intros inv.
  assert (Hbad : ~ InvoiceSpec.late_fees_appendable inv) by (intros H; exact H).
  split; [exact Hbad|].
  exact (proj2 (add_late_fee_raises_iff "2024-01-11T00:00:00" (Dec.cents 1000) inv) Hbad).
Defined.

Lemma AllocationMethodEnum_value_round_trip_witness :
  AllocationMethodEnum_of_value "per_person" = Some PER_PERSON /\
  AllocationMethodEnum_value PER_PERSON = "per_person".
Proof.
  split; [reflexivity|].
  exact (proj1 (proj2 AllocationMethodEnum_value_round_trip) "per_person" PER_PERSON eq_refl).
Defined.

Lemma add_entrance_once_witness :
  NoDup (BuildingSpec.entrance_list building_7) /\
  NoDup (BuildingSpec.entrance_list (Building.add_entrance "C" building_7)).
Proof.
  assert (Hnd : NoDup (BuildingSpec.entrance_list building_7))
    by (apply (bool_decide_unpack _); by vm_compute).
  split; [exact Hnd|].
  exact (proj1 (proj2 (proj2 (add_entrance_once "C" building_7))) Hnd).
Defined.

Lemma remove_entrance_raises_iff_witness :
  Building.remove_entrance "A" (Building.mk 8 None None []) = None.
Proof.
  apply (proj2 (remove_entrance_raises_iff "A" (Building.mk 8 None None []))).
  split; reflexivity.
Defined.

Lemma share_percentage_never_raises_witness :
  exists r,
    calculate_share_percentage None
      (UnitRow.mk (Unit.mk 1 7 (Some (Dec.mk false 20000 (-6))) (Some 2) true)
         None None "1" None []) = Some r /\
    r = Dec.of_int 0.
Proof.
  destruct (share_percentage_never_raises None
              (UnitRow.mk (Unit.mk 1 7 (Some (Dec.mk false 20000 (-6))) (Some 2) true)
                 None None "1" None [])) as (r & Hrun & Hzero).
  exists r. split; [exact Hrun|]. apply Hzero. right. left. reflexivity.
Defined.

Lemma floors_count_bounds_witness :
  Building.floors_count (Building.mk 8 None None
                           [UnitRow.mk (Unit.mk 1 8 None None true) None None "1" None []])
  = 0.
Proof.
  apply (proj2 (proj2 (floors_count_bounds
                         (Building.mk 8 None None
                            [UnitRow.mk (Unit.mk 1 8 None None true) None None "1" None []])))).
  intros u Hu. apply list_elem_of_singleton in Hu. by subst.
Defined.
